(** * ophyd.scaler: the SynApps scaler record devices

    A shallow embedding of [ophyd/scaler.py]: the field-set generators
    [_scaler_fields] and [_sc_chans], the class-level field tables of
    [EpicsScaler], the per-channel device [ScalerChannel] and the composite
    device [ScalerCH] with [match_names] and [select_channels].

    Python objects are mutable; here every method takes the object and
    returns the object after the call.  The control system (the values
    behind the process variables) is external to the module and is only
    ever read by it, so it is a read-only environment [HW] passed to the
    methods that call [get()]. *)

From Stdlib Require Import String Ascii List ZArith Lia Bool DecimalString.
From Stdlib Require DecimalPos DecimalZ.
Import ListNotations.
Local Open Scope list_scope.
Local Open Scope string_scope.

(** ** Python primitives used by the module *)

Module Py.

(** [str(i)] for an int, as ['{i}'.format(i=i)] renders it. *)
Definition str_int (i : Z) : string := NilZero.string_of_int (Z.to_int i).

(** Left padding with ["0"] up to [width] characters. *)
Fixpoint zeros (n : nat) : string :=
  match n with
  | O => ""
  | S n' => "0" ++ zeros n'
  end.

Definition zfill (width : nat) (digits : string) : string :=
  zeros (width - String.length digits) ++ digits.

(** ['{:02d}'.format(k)]: the sign counts towards the width and the zeros
    go between the sign and the digits. *)
Definition fmt_02d (k : Z) : string :=
  if (k <? 0)%Z then "-" ++ zfill 1 (str_int (- k)) else zfill 2 (str_int k).

(** [range(a, b)]. *)
Definition range (a b : Z) : list Z :=
  map (fun n => (a + Z.of_nat n)%Z) (seq 0 (Z.to_nat (b - a))).

(** Truthiness of a str: the empty string is falsy. *)
Definition truthy (x : string) : bool :=
  match x with
  | EmptyString => false
  | String _ _ => true
  end.

(** The exceptions the module can raise or meet.  [RuntimeError] carries the
    format template and the two arguments of its [.format] call (the
    offending name and [tuple(name_map)], the keys in dict order). *)
Inductive Exn : Type :=
| AttributeError (msg : string)
| RuntimeError (template : string) (ch : string) (named : list string).

(** *** Insertion-ordered dictionaries ([OrderedDict], [dict]) *)

Section Dict.
Context {V : Type}.

Definition dict := list (string * V).

(** [d[k]]; [None] stands for [KeyError]. *)
Fixpoint get (k : string) (d : dict) : option V :=
  match d with
  | [] => None
  | (k', v') :: rest => if String.eqb k k' then Some v' else get k rest
  end.

(** [d[k] = v]: a present key keeps its position and takes the new
    value, a new key goes last. *)
Fixpoint set (k : string) (v : V) (d : dict) : dict :=
  match d with
  | [] => [(k, v)]
  | (k', v') :: rest =>
      if String.eqb k k' then (k', v) :: rest else (k', v') :: set k v rest
  end.

Definition keys (d : dict) : list string := map fst d.
End Dict.
Arguments dict V : clear implicits.

End Py.

(** ** Framework vocabulary (ophyd.signal, ophyd.device) *)

Inductive SignalClass : Type := EpicsSignal | EpicsSignalRO.

Inductive Kind : Type := OMITTED | NORMAL | CONFIG | HINTED.

(** ** [_scaler_fields] *)

Section ScalerFields.
Context {Cls Kw : Type}.

(** The loop of [_scaler_fields], from the dictionary built so far. *)
Fixpoint _scaler_fields_loop (cls : Cls) (attr_base field_base : string)
         (range_ : list Z) (kwargs : Kw)
         (defn : Py.dict (Cls * string * Kw)) : Py.dict (Cls * string * Kw) :=
  match range_ with
  | [] => defn
  | i :: rest =>
      let attr := attr_base ++ Py.str_int i in
      let suffix := field_base ++ Py.str_int i in
      _scaler_fields_loop cls attr_base field_base rest kwargs
                          (Py.set attr (cls, suffix, kwargs) defn)
  end.

Definition _scaler_fields (cls : Cls) (attr_base field_base : string)
           (range_ : list Z) (kwargs : Kw) : Py.dict (Cls * string * Kw) :=
  _scaler_fields_loop cls attr_base field_base range_ kwargs [].
End ScalerFields.

(** ** [EpicsScaler]: the four dynamic field families *)

Module EpicsScaler.
Definition channels := _scaler_fields EpicsSignalRO "chan" ".S" (Py.range 1 33) HINTED.
Definition names := _scaler_fields EpicsSignal "name" ".NM" (Py.range 1 33) CONFIG.
Definition presets := _scaler_fields EpicsSignal "preset" ".PR" (Py.range 1 33) OMITTED.
Definition gates := _scaler_fields EpicsSignal "gate" ".G" (Py.range 1 33) OMITTED.
End EpicsScaler.

(** ** [_sc_chans] *)

(** The class a sub-device definition names. *)
Inductive DeviceClass : Type := ScalerChannelCls.

(** The keyword arguments [{'ch_num': k, 'kind': Kind.HINTED}]. *)
Record ChanKwargs : Type := { kw_ch_num : Z; kw_kind : Kind }.

Fixpoint _sc_chans_loop (attr_fix : string) (id_range : list Z)
         (defn : Py.dict (DeviceClass * string * ChanKwargs))
  : Py.dict (DeviceClass * string * ChanKwargs) :=
  match id_range with
  | [] => defn
  | k :: rest =>
      _sc_chans_loop attr_fix rest
        (Py.set (attr_fix ++ Py.fmt_02d k)
                (ScalerChannelCls, "", {| kw_ch_num := k; kw_kind := HINTED |})
                defn)
  end.

Definition _sc_chans (attr_fix : string) (id_range : list Z)
  : Py.dict (DeviceClass * string * ChanKwargs) :=
  _sc_chans_loop attr_fix id_range [].

(** ** The control system and the objects bound to it *)

(** The current value of every process variable, by address. *)
Definition HW : Type := string -> string.

(** What the device framework decides at construction and this module does
    not: the display name a sub-object gets from its parent's name and its
    attribute name, and what the read set, the configuration read set and the
    hints hold before [__init__] assigns them (the class passes one default
    for each of the two sets). *)
Record Framework : Type := {
  child_name : string -> string -> string;
  default_read_attrs : list string;
  default_configuration_attrs : list string;
  default_hints : Py.dict (list string)
}.

Module Signal.
(** An [EpicsSignal] / [EpicsSignalRO]: the address it is bound to and its
    display name, which is a plain attribute of the object. *)
Record t : Type := {
  cls : SignalClass;
  pvname : string;
  name : string;
  string_ : bool
}.

(** [sig.get()] *)
Definition get (hw : HW) (sig : t) : string := hw (pvname sig).

(** [sig.name = v] *)
Definition set_name (v : string) (sig : t) : t :=
  {| cls := cls sig; pvname := pvname sig; name := v; string_ := string_ sig |}.
End Signal.

(** The two kinds of object on which the module evaluates [.get()]: a signal
    has the method, a str does not. *)
Inductive PyObj : Type :=
| PyStr (v : string)
| PySignal (sig : Signal.t).

Definition call_get (hw : HW) (o : PyObj) : Py.Exn + string :=
  match o with
  | PySignal sig => inr (Signal.get hw sig)
  | PyStr _ => inl (Py.AttributeError "'str' object has no attribute 'get'")
  end.

(** What a method call leaves behind: the object after a normal return, or
    the exception together with the object as it is when the exception
    leaves the method. *)
Inductive Outcome (A : Type) : Type :=
| Returned (self : A)
| Raised (e : Py.Exn) (self : A).
Arguments Returned {A} self.
Arguments Raised {A} e self.

Definition after {A : Type} (o : Outcome A) : A :=
  match o with
  | Returned self => self
  | Raised _ self => self
  end.

(** ** [ScalerChannel] *)

Module ScalerChannel.
(** [name] is the device's own display name, the attribute every framework
    object has; the four components are [chname], [s], [preset], [gate]. *)
Record t : Type := {
  prefix : string;
  _ch_num : Z;
  name : string;
  kind : Kind;
  chname : Signal.t;
  s : Signal.t;
  preset : Signal.t;
  gate : Signal.t
}.

(** [self.s.name = self.chname.get()] *)
Definition match_name (hw : HW) (self : t) : t :=
  {| prefix := prefix self;
     _ch_num := _ch_num self;
     name := name self;
     kind := kind self;
     chname := chname self;
     s := Signal.set_name (Signal.get hw (chname self)) (s self);
     preset := preset self;
     gate := gate self |}.

(** A formatted component: ['{self.prefix}<field>{self._ch_num}']. *)
Definition FC (fw : Framework) (c : SignalClass) (field : string) (string_ : bool)
           (prefix_ : string) (ch_num : Z) (name_ attr : string) : Signal.t :=
  {| Signal.cls := c;
     Signal.pvname := prefix_ ++ field ++ Py.str_int ch_num;
     Signal.name := child_name fw name_ attr;
     Signal.string_ := string_ |}.

(** [__init__(self, prefix, ch_num, **kwargs)], the keyword arguments being
    the display name and the kind. *)
Definition init (fw : Framework) (hw : HW) (prefix_ : string) (ch_num : Z)
           (name_ : string) (kind_ : Kind) : t :=
  match_name hw
    {| prefix := prefix_;
       _ch_num := ch_num;
       name := name_;
       kind := kind_;
       chname := FC fw EpicsSignal ".NM" false prefix_ ch_num name_ "chname";
       s := FC fw EpicsSignalRO ".S" false prefix_ ch_num name_ "s";
       preset := FC fw EpicsSignal ".PR" false prefix_ ch_num name_ "preset";
       gate := FC fw EpicsSignal ".G" true prefix_ ch_num name_ "gate" |}.

(** The expression [<channel>.name].  The class declares the components
    [chname], [s], [preset] and [gate] and none called [name], so the
    attribute is the one every framework object carries, its display name:
    [match_name] assigns a str to [self.s.name], and [ScalerCH.__init__]
    tests [<channel>.name] for emptiness and stores it in a list of names. *)
Definition getattr_name (self : t) : PyObj := PyStr (name self).

(** The expression [<channel>.chname]: the signal bound to the name field. *)
Definition getattr_chname (self : t) : PyObj := PySignal (chname self).
End ScalerChannel.

(** ** [ScalerCH] *)

Module ScalerCH.

(** The [channels] collection: its members in declared order
    ([component_names] is the list of keys) and its two read sets. *)
Record Channels : Type := {
  components : Py.dict ScalerChannel.t;
  read_attrs : list string;
  configuration_attrs : list string
}.

Record t : Type := {
  prefix : string;
  name : string;
  channels : Channels;
  signals : Py.dict Signal.t;
  hints : Py.dict (list string)
}.

Definition set_components (cs : Py.dict ScalerChannel.t) (self : t) : t :=
  {| prefix := prefix self; name := name self;
     channels := {| components := cs;
                    read_attrs := read_attrs (channels self);
                    configuration_attrs := configuration_attrs (channels self) |};
     signals := signals self; hints := hints self |}.

(** [self.channels.read_attrs = list(l); self.channels.configuration_attrs = list(l)] *)
Definition set_attrs (l : list string) (self : t) : t :=
  {| prefix := prefix self; name := name self;
     channels := {| components := components (channels self);
                    read_attrs := l;
                    configuration_attrs := l |};
     signals := signals self; hints := hints self |}.

(** [self.hints = {'fields': fs}] *)
Definition set_hints (fs : list string) (self : t) : t :=
  {| prefix := prefix self; name := name self; channels := channels self;
     signals := signals self; hints := [("fields", fs)] |}.

(** The class-level signals: attribute, class, suffix. *)
Definition declared_signals : list (string * SignalClass * string) :=
  [ ("count", EpicsSignal, ".CNT"); ("count_mode", EpicsSignal, ".CONT");
    ("delay", EpicsSignal, ".DLY"); ("auto_count_delay", EpicsSignal, ".DLY1");
    ("time", EpicsSignal, ".T"); ("freq", EpicsSignal, ".FREQ");
    ("preset_time", EpicsSignal, ".TP"); ("auto_count_time", EpicsSignal, ".TP1");
    ("update_rate", EpicsSignal, ".RATE");
    ("auto_count_update_rate", EpicsSignal, ".RAT1");
    ("egu", EpicsSignal, ".EGU") ].

(** The class-level [channels = DDC(_sc_chans('chan', range(1, 33)), ...)]. *)
Definition declared_channels := _sc_chans "chan" (Py.range 1 33).

(** Modelled from the spec: [Device.__init__] of ophyd.device, which is not
    part of this module ("construction builds the fixed set of 32 channel
    sub-objects, each channel resolves its own hardware addresses from its
    index"): every declared sub-device is constructed by its class from the
    parent's address followed by the declared suffix and from its keyword
    arguments, in declared order. *)
Definition Device_init (fw : Framework) (hw : HW) (prefix_ name_ : string) : t :=
  let channels_name := child_name fw name_ "channels" in
  {| prefix := prefix_;
     name := name_;
     channels :=
       {| components :=
            map (fun '(attr, (_, suffix, kw)) =>
                   (attr, ScalerChannel.init fw hw (prefix_ ++ suffix) (kw_ch_num kw)
                                             (child_name fw channels_name attr)
                                             (kw_kind kw)))
                declared_channels;
          read_attrs := default_read_attrs fw;
          configuration_attrs := default_configuration_attrs fw |};
     signals :=
       map (fun '(attr, c, suffix) =>
              (attr, {| Signal.cls := c;
                        Signal.pvname := prefix_ ++ suffix;
                        Signal.name := child_name fw name_ attr;
                        Signal.string_ := String.eqb attr "count_mode" |}))
           declared_signals;
     hints := default_hints fw |}.

(** The loop of [__init__] over [component_names]. *)
Fixpoint active_loop (comps : Py.dict ScalerChannel.t) (active_channels : list string)
  : list string :=
  match comps with
  | [] => active_channels
  | (_, ch) :: rest =>
      let ch_name := ScalerChannel.name ch in
      if Py.truthy ch_name
      then active_loop rest (active_channels ++ [ch_name])%list
      else active_loop rest active_channels
  end.

(** [__init__] *)
Definition init (fw : Framework) (hw : HW) (prefix_ name_ : string) : t :=
  let self := Device_init fw hw prefix_ name_ in
  let active_channels := active_loop (components (channels self)) [] in
  set_attrs active_channels self.

(** [match_names] *)
Definition match_names (hw : HW) (self : t) : t :=
  set_components
    (map (fun '(s, ch) => (s, ScalerChannel.match_name hw ch))
         (components (channels self)))
    self.

(** The dict comprehension of [select_channels]:
    [{getattr(self.channels, s).name.get(): s for s in component_names}]. *)
Fixpoint name_map_loop (hw : HW) (comps : Py.dict ScalerChannel.t)
         (name_map : Py.dict string) : Py.Exn + Py.dict string :=
  match comps with
  | [] => inr name_map
  | (s, ch) :: rest =>
      match call_get hw (ScalerChannel.getattr_name ch) with
      | inl e => inl e
      | inr k => name_map_loop hw rest (Py.set k s name_map)
      end
  end.

Definition not_configured : string :=
  "The channel {} is not configured on the scaler.  The named channels are {}".

(** The loop over [chan_names], with the [KeyError] handler. *)
Fixpoint read_attrs_loop (name_map : Py.dict string) (chan_names : list string)
         (read_attrs_ : list string) : Py.Exn + list string :=
  match chan_names with
  | [] => inr read_attrs_
  | ch :: rest =>
      match Py.get ch name_map with
      | Some s => read_attrs_loop name_map rest (read_attrs_ ++ [s])%list
      | None => inl (Py.RuntimeError not_configured ch (Py.keys name_map))
      end
  end.

(** [[getattr(self.channels, ch).s.name for ch in ids]] *)
Fixpoint hint_fields (comps : Py.dict ScalerChannel.t) (ids : list string)
  : Py.Exn + list string :=
  match ids with
  | [] => inr []
  | ch :: rest =>
      match Py.get ch comps with
      | None => inl (Py.AttributeError ch)
      | Some c =>
          match hint_fields comps rest with
          | inl e => inl e
          | inr fs => inr (Signal.name (ScalerChannel.s c) :: fs)
          end
      end
  end.

(** [select_channels] *)
Definition select_channels (hw : HW) (chan_names : list string) (self : t) : Outcome t :=
  let self := match_names hw self in
  match name_map_loop hw (components (channels self)) [] with
  | inl e => Raised e self
  | inr name_map =>
      match read_attrs_loop name_map chan_names ["chan01"] with
      | inl e => Raised e self
      | inr read_attrs_ =>
          let self := set_attrs read_attrs_ self in
          match hint_fields (components (channels self)) (tl read_attrs_) with
          | inl e => Raised e self
          | inr fs => Returned (set_hints fs self)
          end
      end
  end.

(** The statements of [select_channels] that follow the dict comprehension,
    from the loop over [chan_names] to the hints, as a function of the local
    [name_map]. *)
Definition select_tail (name_map : Py.dict string) (chan_names : list string) (self : t)
  : Outcome t :=
  match read_attrs_loop name_map chan_names ["chan01"] with
  | inl e => Raised e self
  | inr read_attrs_ =>
      let self := set_attrs read_attrs_ self in
      match hint_fields (components (channels self)) (tl read_attrs_) with
      | inl e => Raised e self
      | inr fs => Returned (set_hints fs self)
      end
  end.

(** A method call on the device, as a caller that goes on after an exception
    sees it. *)
Inductive Op : Type :=
| CallMatchNames (hw : HW)
| CallSelectChannels (hw : HW) (chan_names : list string).

Definition step (self : t) (op : Op) : t :=
  match op with
  | CallMatchNames hw => match_names hw self
  | CallSelectChannels hw chan_names => after (select_channels hw chan_names self)
  end.

(** The device after a sequence of calls. *)
Definition run (ops : list Op) (self : t) : t := fold_left step ops self.

End ScalerCH.

(** ** A concrete installation, for the worked cases *)

Module Example.
(** The framework's usual naming: parent name, underscore, attribute. *)
Definition ophyd_fw : Framework :=
  {| child_name := fun parent attr => parent ++ "_" ++ attr;
     default_read_attrs := [];
     default_configuration_attrs := [];
     default_hints := [] |}.

(** A control system from a table of addresses and values; every other
    address reads as the empty string. *)
Definition hw_of (table : list (string * string)) : HW :=
  fun pv => match Py.get pv table with Some v => v | None => "" end.

(** Channels 1, 4 and 9 are named, the others are not. *)
Definition hw_149 : HW :=
  hw_of [("XF:SC.NM1", "I0"); ("XF:SC.NM4", "It"); ("XF:SC.NM9", "If")].

(** Channels 3 and 5 are named A and B. *)
Definition hw_AB : HW := hw_of [("XF:SC.NM3", "A"); ("XF:SC.NM5", "B")].

(** Channels 2 and 6 are both named X. *)
Definition hw_XX : HW := hw_of [("XF:SC.NM2", "X"); ("XF:SC.NM6", "X")].

Definition sc (hw : HW) : ScalerCH.t := ScalerCH.init ophyd_fw hw "XF:SC" "sc".

Definition chan_ids : list string :=
  ["chan01"; "chan02"; "chan03"; "chan04"; "chan05"; "chan06"; "chan07"; "chan08";
   "chan09"; "chan10"; "chan11"; "chan12"; "chan13"; "chan14"; "chan15"; "chan16";
   "chan17"; "chan18"; "chan19"; "chan20"; "chan21"; "chan22"; "chan23"; "chan24";
   "chan25"; "chan26"; "chan27"; "chan28"; "chan29"; "chan30"; "chan31"; "chan32"].

(** A framework whose two defaults differ: every member in the read set,
    none in the configuration read set. *)
Definition split_fw : Framework :=
  {| child_name := fun parent attr => parent ++ "_" ++ attr;
     default_read_attrs := chan_ids;
     default_configuration_attrs := [];
     default_hints := [] |}.
End Example.

(** * Properties *)

(** ** Dictionaries *)

Section DictFacts.
Context {V : Type}.
Implicit Types (d : Py.dict V) (k : string) (v : V).

Lemma get_set k k' v d :
  Py.get k (Py.set k' v d) = if String.eqb k k' then Some v else Py.get k d.
Proof.
  induction d as [|[k0 v0] d IH]; simpl.
  - destruct (String.eqb k k'); reflexivity.
  - destruct (String.eqb k' k0) eqn:E'; simpl.
    + apply String.eqb_eq in E'. subst k0.
      destruct (String.eqb k k'); reflexivity.
    + destruct (String.eqb k k0) eqn:E0.
      * apply String.eqb_eq in E0. subst k0.
        rewrite String.eqb_sym, E'. reflexivity.
      * exact IH.
Qed.

(** A later assignment to a key replaces the earlier one. *)
Lemma get_set_same k v d : Py.get k (Py.set k v d) = Some v.
Proof. rewrite get_set, String.eqb_refl. reflexivity. Qed.

Lemma set_fresh k v d :
  ~ In k (Py.keys d) -> Py.set k v d = (d ++ [(k, v)])%list.
Proof.
  induction d as [|[k0 v0] d IH]; simpl; intros Hk.
  - reflexivity.
  - destruct (String.eqb k k0) eqn:E.
    + apply String.eqb_eq in E. subst k0. exfalso. apply Hk. now left.
    + rewrite IH; [reflexivity|]. intros Hin. apply Hk. now right.
Qed.

Lemma keys_set k v d : forall k', In k' (Py.keys (Py.set k v d)) <-> k' = k \/ In k' (Py.keys d).
Proof.
  induction d as [|[k0 v0] d IH]; simpl; intros k'.
  - intuition congruence.
  - destruct (String.eqb k k0) eqn:E; simpl.
    + apply String.eqb_eq in E. subst k0. intuition congruence.
    + rewrite IH. intuition congruence.
Qed.

Lemma get_of_key k d : In k (Py.keys d) -> exists v, Py.get k d = Some v.
Proof.
  induction d as [|[k0 v0] d IH]; simpl; intros Hin.
  - contradiction.
  - destruct (String.eqb k k0) eqn:E.
    + eauto.
    + destruct Hin as [->|Hin].
      * rewrite String.eqb_refl in E. discriminate.
      * auto.
Qed.

Lemma get_in k v d : Py.get k d = Some v -> In (k, v) d.
Proof.
  induction d as [|[k0 v0] d IH]; simpl; intros H.
  - discriminate.
  - destruct (String.eqb k k0) eqn:E.
    + apply String.eqb_eq in E. injection H as ->. subst. now left.
    + right. auto.
Qed.
End DictFacts.

(** ** The field-set generators *)

Section GeneratorFacts.
Context {Cls Kw : Type}.

(** Over a range whose attribute names are new and pairwise different the
    generator appends one entry per index, in range order. *)
Lemma _scaler_fields_loop_fresh (cls : Cls) attr_base field_base (kwargs : Kw) range_ :
  forall defn,
    NoDup (Py.keys defn ++ map (fun i => (attr_base ++ Py.str_int i)%string) range_)%list ->
    _scaler_fields_loop cls attr_base field_base range_ kwargs defn
    = (defn ++ map (fun i => ((attr_base ++ Py.str_int i)%string,
                              (cls, (field_base ++ Py.str_int i)%string, kwargs)))
                   range_)%list.
Proof.
  induction range_ as [|i rest IH]; simpl; intros defn Hnd.
  - now rewrite app_nil_r.
  - assert (Hfresh : ~ In (attr_base ++ Py.str_int i) (Py.keys defn)).
    { intros Hin. apply NoDup_remove_2 in Hnd. apply Hnd.
      apply in_or_app. now left. }
    rewrite (set_fresh _ _ _ Hfresh).
    rewrite IH.
    + rewrite <- app_assoc. reflexivity.
    + unfold Py.keys in *. rewrite map_app. simpl. rewrite <- app_assoc. exact Hnd.
Qed.

Lemma _scaler_fields_fresh (cls : Cls) attr_base field_base (kwargs : Kw) range_ :
  NoDup (map (fun i => attr_base ++ Py.str_int i) range_) ->
  _scaler_fields cls attr_base field_base range_ kwargs
  = map (fun i => (attr_base ++ Py.str_int i,
                   (cls, field_base ++ Py.str_int i, kwargs))) range_.
Proof.
  intros Hnd. unfold _scaler_fields.
  now rewrite _scaler_fields_loop_fresh.
Qed.
End GeneratorFacts.

Lemma _sc_chans_loop_fresh attr_fix id_range :
  forall defn,
    NoDup (Py.keys defn ++ map (fun k => (attr_fix ++ Py.fmt_02d k)%string) id_range)%list ->
    _sc_chans_loop attr_fix id_range defn
    = (defn ++ map (fun k => ((attr_fix ++ Py.fmt_02d k)%string,
                              (ScalerChannelCls, "",
                               {| kw_ch_num := k; kw_kind := HINTED |}))) id_range)%list.
Proof.
  induction id_range as [|k rest IH]; simpl; intros defn Hnd.
  - now rewrite app_nil_r.
  - assert (Hfresh : ~ In (attr_fix ++ Py.fmt_02d k) (Py.keys defn)).
    { intros Hin. apply NoDup_remove_2 in Hnd. apply Hnd.
      apply in_or_app. now left. }
    rewrite (set_fresh _ _ _ Hfresh).
    rewrite IH.
    + rewrite <- app_assoc. reflexivity.
    + unfold Py.keys in *. rewrite map_app. simpl. rewrite <- app_assoc. exact Hnd.
Qed.

Lemma range_1_33_In (i : Z) : (1 <= i <= 32)%Z -> In i (Py.range 1 33).
Proof.
  intros Hi. unfold Py.range. apply in_map_iff.
  exists (Z.to_nat (i - 1)). split; [cbv beta; lia|].
  apply in_seq. lia.
Qed.

Lemma range_1_33_nth (i : Z) :
  (1 <= i <= 32)%Z -> nth_error (Py.range 1 33) (Z.to_nat (i - 1)) = Some i.
Proof.
  intros Hi. unfold Py.range.
  rewrite nth_error_map.
  assert (Hlt : (Z.to_nat (i - 1) < Z.to_nat (33 - 1))%nat) by lia.
  rewrite nth_error_nth' with (d := O) by (rewrite length_seq; exact Hlt).
  rewrite seq_nth by exact Hlt. cbn [option_map]. f_equal. lia.
Qed.

(** Decidable distinctness of a list of strings. *)
Fixpoint distinct (l : list string) : bool :=
  match l with
  | [] => true
  | x :: rest => negb (existsb (String.eqb x) rest) && distinct rest
  end.

Lemma distinct_NoDup l : distinct l = true -> NoDup l.
Proof.
  induction l as [|x rest IH]; simpl; intros H.
  - constructor.
  - apply andb_true_iff in H as [Hx Hr]. constructor; [|auto].
    intros Hin. apply negb_true_iff in Hx.
    assert (existsb (String.eqb x) rest = true).
    { apply existsb_exists. exists x. split; [exact Hin|apply String.eqb_refl]. }
    congruence.
Qed.

(** The attribute names and address suffixes of a field table. *)
Definition attr_suffix {Cls Kw : Type} (d : Py.dict (Cls * string * Kw))
  : list (string * string) :=
  map (fun e => (fst e, snd (fst (snd e)))) d.

Lemma EpicsScaler_channels_eq :
  EpicsScaler.channels
  = map (fun i => ("chan" ++ Py.str_int i, (EpicsSignalRO, ".S" ++ Py.str_int i, HINTED)))
        (Py.range 1 33).
Proof. apply _scaler_fields_fresh, distinct_NoDup. vm_compute. reflexivity. Qed.

Lemma EpicsScaler_names_eq :
  EpicsScaler.names
  = map (fun i => ("name" ++ Py.str_int i, (EpicsSignal, ".NM" ++ Py.str_int i, CONFIG)))
        (Py.range 1 33).
Proof. apply _scaler_fields_fresh, distinct_NoDup. vm_compute. reflexivity. Qed.

Lemma EpicsScaler_presets_eq :
  EpicsScaler.presets
  = map (fun i => ("preset" ++ Py.str_int i, (EpicsSignal, ".PR" ++ Py.str_int i, OMITTED)))
        (Py.range 1 33).
Proof. apply _scaler_fields_fresh, distinct_NoDup. vm_compute. reflexivity. Qed.

Lemma EpicsScaler_gates_eq :
  EpicsScaler.gates
  = map (fun i => ("gate" ++ Py.str_int i, (EpicsSignal, ".G" ++ Py.str_int i, OMITTED)))
        (Py.range 1 33).
Proof. apply _scaler_fields_fresh, distinct_NoDup. vm_compute. reflexivity. Qed.

Lemma declared_channels_eq :
  ScalerCH.declared_channels
  = map (fun k => ("chan" ++ Py.fmt_02d k,
                   (ScalerChannelCls, "", {| kw_ch_num := k; kw_kind := HINTED |})))
        (Py.range 1 33).
Proof.
  unfold ScalerCH.declared_channels, _sc_chans.
  rewrite _sc_chans_loop_fresh; [reflexivity|].
  apply distinct_NoDup. vm_compute. reflexivity.
Qed.

Lemma declared_channels_keys : Py.keys ScalerCH.declared_channels = Example.chan_ids.
Proof. vm_compute. reflexivity. Qed.

(** C5: for every index i from 1 to 32, entry number i of each of the four
    field tables of the direct-field scaler is the attribute chan{i},
    name{i}, preset{i}, gate{i} (plain decimal, no padding) with the address
    suffix .S{i}, .NM{i}, .PR{i}, .G{i}; entry number i of the composite
    device's channel table is the identifier chan{i:02d}, two digits, with
    channel index i.  Each table has 32 entries, in range order, and no key
    occurs twice; the identifiers are chan01 .. chan32. *)
Theorem field_generators_by_index (i : Z) (Hi : (1 <= i <= 32)%Z) :
  let n := Z.to_nat (i - 1) in
  nth_error EpicsScaler.channels n
  = Some ("chan" ++ Py.str_int i, (EpicsSignalRO, ".S" ++ Py.str_int i, HINTED))
  /\ nth_error EpicsScaler.names n
     = Some ("name" ++ Py.str_int i, (EpicsSignal, ".NM" ++ Py.str_int i, CONFIG))
  /\ nth_error EpicsScaler.presets n
     = Some ("preset" ++ Py.str_int i, (EpicsSignal, ".PR" ++ Py.str_int i, OMITTED))
  /\ nth_error EpicsScaler.gates n
     = Some ("gate" ++ Py.str_int i, (EpicsSignal, ".G" ++ Py.str_int i, OMITTED))
  /\ nth_error ScalerCH.declared_channels n
     = Some ("chan" ++ Py.fmt_02d i,
             (ScalerChannelCls, "", {| kw_ch_num := i; kw_kind := HINTED |}))
  /\ String.length (Py.fmt_02d i) = 2%nat
  /\ (NoDup (Py.keys EpicsScaler.channels) /\ NoDup (Py.keys EpicsScaler.names)
      /\ NoDup (Py.keys EpicsScaler.presets) /\ NoDup (Py.keys EpicsScaler.gates)
      /\ NoDup (Py.keys ScalerCH.declared_channels))
  /\ (List.length EpicsScaler.channels = 32%nat /\ List.length EpicsScaler.names = 32%nat
      /\ List.length EpicsScaler.presets = 32%nat /\ List.length EpicsScaler.gates = 32%nat
      /\ List.length ScalerCH.declared_channels = 32%nat)
  /\ Py.keys ScalerCH.declared_channels = Example.chan_ids.
Proof.
  intros n. subst n.
  pose proof (range_1_33_nth i Hi) as Hnth.
  repeat match goal with |- _ /\ _ => split end.
  - rewrite EpicsScaler_channels_eq, nth_error_map, Hnth. reflexivity.
  - rewrite EpicsScaler_names_eq, nth_error_map, Hnth. reflexivity.
  - rewrite EpicsScaler_presets_eq, nth_error_map, Hnth. reflexivity.
  - rewrite EpicsScaler_gates_eq, nth_error_map, Hnth. reflexivity.
  - rewrite declared_channels_eq, nth_error_map, Hnth. reflexivity.
  - pose proof (range_1_33_In i Hi) as Hin.
    assert (Hall : Forall (fun k => String.length (Py.fmt_02d k) = 2%nat) (Py.range 1 33)).
    { unfold Py.range. cbn [Z.to_nat Z.sub Z.add Z.opp Z.pos_sub Pos.to_nat Pos.iter_op
                              Nat.add seq map Pos.pred_double].
      repeat (constructor; [vm_compute; reflexivity|]). constructor. }
    rewrite Forall_forall in Hall. exact (Hall i Hin).
  - apply distinct_NoDup. vm_compute. reflexivity.
  - apply distinct_NoDup. vm_compute. reflexivity.
  - apply distinct_NoDup. vm_compute. reflexivity.
  - apply distinct_NoDup. vm_compute. reflexivity.
  - apply distinct_NoDup. vm_compute. reflexivity.
  - vm_compute. reflexivity.
  - vm_compute. reflexivity.
  - vm_compute. reflexivity.
  - vm_compute. reflexivity.
  - vm_compute. reflexivity.
  - exact declared_channels_keys.
Qed.

(** At index 7: chan7 with .S7, name7 with .NM7, preset7 with .PR7, gate7
    with .G7, and the identifier chan07. *)
Lemma field_generators_by_index_witness :
  (1 <= 7 <= 32)%Z
  /\ nth_error EpicsScaler.channels 6 = Some ("chan7", (EpicsSignalRO, ".S7", HINTED))
  /\ nth_error EpicsScaler.names 6 = Some ("name7", (EpicsSignal, ".NM7", CONFIG))
  /\ nth_error EpicsScaler.presets 6 = Some ("preset7", (EpicsSignal, ".PR7", OMITTED))
  /\ nth_error EpicsScaler.gates 6 = Some ("gate7", (EpicsSignal, ".G7", OMITTED))
  /\ nth_error ScalerCH.declared_channels 6
     = Some ("chan07", (ScalerChannelCls, "", {| kw_ch_num := 7; kw_kind := HINTED |})).
Proof.
  assert (H7 : (1 <= 7 <= 32)%Z) by lia.
  split; [exact H7|].
  pose proof (field_generators_by_index 7 H7) as H. cbv zeta in H.
  destruct H as (H1 & H2 & H3 & H4 & H5 & _).
  exact (conj H1 (conj H2 (conj H3 (conj H4 H5)))).
Defined.

(** Unpadded and padded renderings differ below ten and agree from ten on. *)
Example rendering_samples :
  Py.str_int 7 = "7" /\ Py.fmt_02d 7 = "07" /\ Py.str_int 32 = "32" /\ Py.fmt_02d 32 = "32"
  /\ attr_suffix EpicsScaler.channels
     = [("chan1", ".S1"); ("chan2", ".S2"); ("chan3", ".S3"); ("chan4", ".S4");
        ("chan5", ".S5"); ("chan6", ".S6"); ("chan7", ".S7"); ("chan8", ".S8");
        ("chan9", ".S9"); ("chan10", ".S10"); ("chan11", ".S11"); ("chan12", ".S12");
        ("chan13", ".S13"); ("chan14", ".S14"); ("chan15", ".S15"); ("chan16", ".S16");
        ("chan17", ".S17"); ("chan18", ".S18"); ("chan19", ".S19"); ("chan20", ".S20");
        ("chan21", ".S21"); ("chan22", ".S22"); ("chan23", ".S23"); ("chan24", ".S24");
        ("chan25", ".S25"); ("chan26", ".S26"); ("chan27", ".S27"); ("chan28", ".S28");
        ("chan29", ".S29"); ("chan30", ".S30"); ("chan31", ".S31"); ("chan32", ".S32")].
Proof. vm_compute. repeat split. Qed.

(** ** [ScalerChannel.match_name] *)

(** C6: calling match_name twice in a row, the control system unchanged in
    between, leaves the count-value field's display name after the second
    call equal to what it was after the first call, namely the value of the
    name field; the second call changes nothing in the channel. *)
Theorem match_name_idempotent (hw : HW) (ch : ScalerChannel.t) :
  let once := ScalerChannel.match_name hw ch in
  let twice := ScalerChannel.match_name hw once in
  Signal.name (ScalerChannel.s twice) = Signal.name (ScalerChannel.s once)
  /\ Signal.name (ScalerChannel.s once) = Signal.get hw (ScalerChannel.chname ch)
  /\ twice = once.
Proof.
  destruct ch as [p n nm k cn [c pv sn st] pr g].
  cbv zeta. unfold ScalerChannel.match_name, Signal.set_name. simpl.
  repeat split.
Qed.

(** C10: match_name changes the display name of the count-value field and
    nothing else: the channel index, the parent address, the channel's own
    name and kind, the name, preset and gate fields as a whole, and the class,
    address and string flag of the count-value field are as before, and so is
    every value read through the four fields. *)
Theorem match_name_frame (hw : HW) (ch : ScalerChannel.t) :
  let ch' := ScalerChannel.match_name hw ch in
  ScalerChannel._ch_num ch' = ScalerChannel._ch_num ch
  /\ ScalerChannel.prefix ch' = ScalerChannel.prefix ch
  /\ ScalerChannel.name ch' = ScalerChannel.name ch
  /\ ScalerChannel.kind ch' = ScalerChannel.kind ch
  /\ ScalerChannel.chname ch' = ScalerChannel.chname ch
  /\ ScalerChannel.preset ch' = ScalerChannel.preset ch
  /\ ScalerChannel.gate ch' = ScalerChannel.gate ch
  /\ Signal.cls (ScalerChannel.s ch') = Signal.cls (ScalerChannel.s ch)
  /\ Signal.pvname (ScalerChannel.s ch') = Signal.pvname (ScalerChannel.s ch)
  /\ Signal.string_ (ScalerChannel.s ch') = Signal.string_ (ScalerChannel.s ch)
  /\ Signal.get hw (ScalerChannel.chname ch') = Signal.get hw (ScalerChannel.chname ch)
  /\ Signal.get hw (ScalerChannel.s ch') = Signal.get hw (ScalerChannel.s ch)
  /\ Signal.get hw (ScalerChannel.preset ch') = Signal.get hw (ScalerChannel.preset ch)
  /\ Signal.get hw (ScalerChannel.gate ch') = Signal.get hw (ScalerChannel.gate ch).
Proof.
  cbv zeta. unfold ScalerChannel.match_name, Signal.set_name, Signal.get. simpl.
  repeat split.
Qed.

(** The one thing match_name may change does change when the names differ. *)
Example match_name_renames :
  let ch := ScalerChannel.init Example.ophyd_fw Example.hw_149 "XF:SC" 4 "sc_channels_chan04" HINTED in
  Signal.name (ScalerChannel.s ch) = "It"
  /\ Signal.pvname (ScalerChannel.chname ch) = "XF:SC.NM4"
  /\ Signal.pvname (ScalerChannel.s ch) = "XF:SC.S4"
  /\ Signal.pvname (ScalerChannel.preset ch) = "XF:SC.PR4"
  /\ Signal.pvname (ScalerChannel.gate ch) = "XF:SC.G4"
  /\ Signal.name (ScalerChannel.s (ScalerChannel.match_name Example.hw_AB ch)) = "".
Proof. vm_compute. repeat split. Qed.

(** ** [ScalerCH]: construction *)

Lemma active_loop_spec comps :
  forall active,
    ScalerCH.active_loop comps active
    = (active ++ filter Py.truthy (map (fun e => ScalerChannel.name (snd e)) comps))%list.
Proof.
  induction comps as [|[id ch] rest IH]; simpl; intros active.
  - now rewrite app_nil_r.
  - destruct (Py.truthy (ScalerChannel.name ch)); rewrite IH.
    + now rewrite <- app_assoc.
    + reflexivity.
Qed.

Lemma read_attrs_set_attrs l self :
  ScalerCH.read_attrs (ScalerCH.channels (ScalerCH.set_attrs l self)) = l.
Proof. reflexivity. Qed.

Lemma configuration_attrs_set_attrs l self :
  ScalerCH.configuration_attrs (ScalerCH.channels (ScalerCH.set_attrs l self)) = l.
Proof. reflexivity. Qed.

Lemma components_set_attrs l self :
  ScalerCH.components (ScalerCH.channels (ScalerCH.set_attrs l self))
  = ScalerCH.components (ScalerCH.channels self).
Proof. reflexivity. Qed.

Lemma components_Device_init fw hw prefix_ name_ :
  ScalerCH.components (ScalerCH.channels (ScalerCH.Device_init fw hw prefix_ name_))
  = map (fun '(attr, (_, suffix, kw)) =>
           (attr, ScalerChannel.init fw hw (prefix_ ++ suffix) (kw_ch_num kw)
                                     (child_name fw (child_name fw name_ "channels") attr)
                                     (kw_kind kw)))
        ScalerCH.declared_channels.
Proof. reflexivity. Qed.

(** What construction puts in the read sets: the non-empty display names of
    the 32 sub-devices, as the framework chose them.  The control system
    does not enter. *)
Lemma init_read_attrs fw hw prefix_ name_ :
  ScalerCH.read_attrs (ScalerCH.channels (ScalerCH.init fw hw prefix_ name_))
  = filter Py.truthy
           (map (child_name fw (child_name fw name_ "channels"))
                (Py.keys ScalerCH.declared_channels)).
Proof.
  unfold ScalerCH.init.
  rewrite read_attrs_set_attrs, active_loop_spec, components_Device_init, app_nil_l.
  apply (f_equal (filter Py.truthy)). unfold Py.keys. rewrite !map_map.
  apply map_ext. intros [attr [[c suffix] kw]]. reflexivity.
Qed.

Lemma init_component_names fw hw prefix_ name_ :
  Py.keys (ScalerCH.components (ScalerCH.channels (ScalerCH.init fw hw prefix_ name_)))
  = Example.chan_ids.
Proof.
  rewrite <- declared_channels_keys.
  unfold ScalerCH.init.
  rewrite components_set_attrs, components_Device_init.
  unfold Py.keys. rewrite map_map.
  apply map_ext. intros [attr [[c suffix] kw]]. reflexivity.
Qed.

(** ** [ScalerCH]: [match_names] *)

Lemma match_names_components hw self :
  ScalerCH.components (ScalerCH.channels (ScalerCH.match_names hw self))
  = map (fun '(s, ch) => (s, ScalerChannel.match_name hw ch))
        (ScalerCH.components (ScalerCH.channels self)).
Proof. reflexivity. Qed.

Lemma match_names_read_attrs hw self :
  ScalerCH.read_attrs (ScalerCH.channels (ScalerCH.match_names hw self))
  = ScalerCH.read_attrs (ScalerCH.channels self)
  /\ ScalerCH.configuration_attrs (ScalerCH.channels (ScalerCH.match_names hw self))
     = ScalerCH.configuration_attrs (ScalerCH.channels self)
  /\ ScalerCH.hints (ScalerCH.match_names hw self) = ScalerCH.hints self.
Proof. repeat split. Qed.

Lemma match_names_keys hw self :
  Py.keys (ScalerCH.components (ScalerCH.channels (ScalerCH.match_names hw self)))
  = Py.keys (ScalerCH.components (ScalerCH.channels self)).
Proof.
  rewrite match_names_components. unfold Py.keys. rewrite map_map.
  apply map_ext. intros [s ch]. reflexivity.
Qed.

(** A channel whose count-value field carries the current value of its name
    field. *)
Definition synced (hw : HW) (ch : ScalerChannel.t) : Prop :=
  Signal.name (ScalerChannel.s ch) = Signal.get hw (ScalerChannel.chname ch).

Lemma match_names_synced hw self :
  Forall (fun e => synced hw (snd e))
         (ScalerCH.components (ScalerCH.channels (ScalerCH.match_names hw self))).
Proof.
  rewrite match_names_components. apply Forall_forall.
  intros [s ch] Hin. apply in_map_iff in Hin as [[s0 ch0] [Heq _]].
  injection Heq as <- <-. reflexivity.
Qed.

(** ** [ScalerCH]: the pieces of [select_channels] *)

(** Every identifier the reverse lookup holds is a member identifier. *)
Lemma name_map_loop_values hw comps :
  forall acc nm,
    ScalerCH.name_map_loop hw comps acc = inr nm ->
    forall k v, Py.get k nm = Some v -> Py.get k acc = Some v \/ In v (Py.keys comps).
Proof.
  induction comps as [|[s ch] rest IH]; cbn [ScalerCH.name_map_loop]; intros acc nm H k v Hk.
  - injection H as <-. now left.
  - destruct (call_get hw (ScalerChannel.getattr_name ch)) as [e|k0]; [discriminate|].
    destruct (IH _ _ H k v Hk) as [Hacc|Hin].
    + rewrite get_set in Hacc. destruct (String.eqb k k0).
      * injection Hacc as <-. right. now left.
      * now left.
    + right. now right.
Qed.

(** The loop over the requested names keeps the caller's order and resolves
    each name through the lookup. *)
Lemma read_attrs_loop_inr nm chan_names :
  forall acc r,
    ScalerCH.read_attrs_loop nm chan_names acc = inr r ->
    exists ids, r = (acc ++ ids)%list
                /\ Forall2 (fun ch s => Py.get ch nm = Some s) chan_names ids.
Proof.
  induction chan_names as [|ch rest IH]; cbn [ScalerCH.read_attrs_loop]; intros acc r H.
  - injection H as <-. exists []. split; [now rewrite app_nil_r|constructor].
  - destruct (Py.get ch nm) as [s|] eqn:E; [|discriminate].
    destruct (IH _ _ H) as (ids & -> & Hids).
    exists (s :: ids). split; [now rewrite <- app_assoc|now constructor].
Qed.

(** It fails exactly on a name the lookup does not hold, and the error names
    the first such name and lists the lookup's keys. *)
Lemma read_attrs_loop_inl nm chan_names :
  forall acc e,
    ScalerCH.read_attrs_loop nm chan_names acc = inl e ->
    exists before ch rest,
      chan_names = (before ++ ch :: rest)%list
      /\ Forall (fun c => Py.get c nm <> None) before
      /\ Py.get ch nm = None
      /\ e = Py.RuntimeError ScalerCH.not_configured ch (Py.keys nm).
Proof.
  induction chan_names as [|ch rest IH]; cbn [ScalerCH.read_attrs_loop]; intros acc e H.
  - discriminate.
  - destruct (Py.get ch nm) as [s|] eqn:E.
    + destruct (IH _ _ H) as (before & ch' & rest' & -> & Hb & Hch & He).
      exists (ch :: before), ch', rest'. repeat split; auto.
      constructor; [congruence|exact Hb].
    + injection H as <-. exists [], ch, rest. repeat split; auto.
Qed.

Lemma read_attrs_loop_total nm chan_names :
  Forall (fun c => Py.get c nm <> None) chan_names ->
  forall acc, exists r, ScalerCH.read_attrs_loop nm chan_names acc = inr r.
Proof.
  induction 1 as [|ch rest Hch _ IH]; cbn [ScalerCH.read_attrs_loop]; intros acc.
  - eauto.
  - destruct (Py.get ch nm); [apply IH|contradiction].
Qed.

(** The hints are the count-value display names of the given members, in
    order; member identifiers never fail to resolve. *)
Lemma hint_fields_total comps ids :
  Forall (fun id => In id (Py.keys comps)) ids ->
  exists fs,
    ScalerCH.hint_fields comps ids = inr fs
    /\ Forall2 (fun id f => exists c, Py.get id comps = Some c
                                      /\ f = Signal.name (ScalerChannel.s c)) ids fs.
Proof.
  induction 1 as [|id rest Hid _ IH]; cbn [ScalerCH.hint_fields].
  - exists []. split; [reflexivity|constructor].
  - destruct (get_of_key _ _ Hid) as [c Hc]. rewrite Hc.
    destruct IH as (fs & -> & Hfs).
    exists (Signal.name (ScalerChannel.s c) :: fs). split; [reflexivity|].
    constructor; eauto.
Qed.

(** The two ways a call can end.  Either it raises with the device as
    [match_names] left it, or it returns with the read sets [chan01]
    followed by the resolved identifiers and the hints of those
    identifiers. *)
Lemma select_channels_cases hw chan_names self :
  let self1 := ScalerCH.match_names hw self in
  (exists e, ScalerCH.select_channels hw chan_names self = Raised e self1)
  \/ (exists nm ids fs,
         ScalerCH.name_map_loop hw (ScalerCH.components (ScalerCH.channels self1)) [] = inr nm
         /\ Forall2 (fun ch s => Py.get ch nm = Some s) chan_names ids
         /\ ScalerCH.hint_fields (ScalerCH.components (ScalerCH.channels self1)) ids = inr fs
         /\ ScalerCH.select_channels hw chan_names self
            = Returned (ScalerCH.set_hints fs (ScalerCH.set_attrs ("chan01" :: ids) self1))).
Proof.
  cbv zeta. unfold ScalerCH.select_channels.
  destruct (ScalerCH.name_map_loop hw _ []) as [e|nm] eqn:Hnm; [left; eauto|].
  destruct (ScalerCH.read_attrs_loop nm chan_names ["chan01"]) as [e|r] eqn:Hr; [left; eauto|].
  destruct (read_attrs_loop_inr _ _ _ _ Hr) as (ids & -> & Hids).
  cbn [app tl]. rewrite components_set_attrs.
  assert (Hmem : Forall (fun id => In id (Py.keys (ScalerCH.components
                           (ScalerCH.channels (ScalerCH.match_names hw self))))) ids).
  { clear Hr. induction Hids as [|ch s names' ids' Hch _ IH]; constructor; [|exact IH].
    destruct (name_map_loop_values _ _ _ _ Hnm _ _ Hch) as [Hnil|Hin]; [discriminate|exact Hin]. }
  destruct (hint_fields_total _ _ Hmem) as (fs & Hfs & _).
  rewrite Hfs. right. exists nm, ids, fs. auto.
Qed.

(** On a device that has members the dict comprehension stops at the first
    one: the expression [<channel>.name] is the channel's display name, a
    str, and a str has no [get]. *)
Lemma name_map_loop_raises hw c rest acc :
  ScalerCH.name_map_loop hw (c :: rest) acc
  = inl (Py.AttributeError "'str' object has no attribute 'get'").
Proof. destruct c as [s ch]. reflexivity. Qed.

Lemma select_channels_on_constructed fw hw hw' prefix_ name_ chan_names :
  ScalerCH.select_channels hw' chan_names (ScalerCH.init fw hw prefix_ name_)
  = Raised (Py.AttributeError "'str' object has no attribute 'get'")
           (ScalerCH.match_names hw' (ScalerCH.init fw hw prefix_ name_)).
Proof.
  unfold ScalerCH.select_channels.
  pose proof (match_names_keys hw' (ScalerCH.init fw hw prefix_ name_)) as Hk.
  rewrite init_component_names in Hk.
  destruct (ScalerCH.components (ScalerCH.channels (ScalerCH.match_names hw' _)))
    as [|c rest] eqn:Hc.
  - discriminate Hk.
  - rewrite name_map_loop_raises. reflexivity.
Qed.

(** Reading the name field goes through [chname], not through [name]. *)
Lemma call_get_chname hw ch :
  call_get hw (ScalerChannel.getattr_chname ch) = inr (Signal.get hw (ScalerChannel.chname ch))
  /\ call_get hw (ScalerChannel.getattr_name ch)
     = inl (Py.AttributeError "'str' object has no attribute 'get'").
Proof. split; reflexivity. Qed.

(** ** Construction: the initial read sets *)

(** The member identifiers whose count-value field has a non-empty name. *)
Definition named_members (self : ScalerCH.t) : list string :=
  Py.keys (filter (fun e => Py.truthy (Signal.name (ScalerChannel.s (snd e))))
                  (ScalerCH.components (ScalerCH.channels self))).

(** C1 (as the code behaves): with exactly channels 1, 4 and 9 named in the
    control system, construction under the framework's usual naming sets both
    read sets to the 32 display names sc_channels_chan01 ..
    sc_channels_chan32 of the sub-devices, not to [chan01; chan04; chan09]:
    the loop tests and appends each sub-device's own display name, which is
    never empty, and neither reads the name field nor appends the member
    identifier.  The members with a named count-value field are chan01,
    chan04 and chan09. *)
Theorem init_active_channels_are_display_names :
  let dev := Example.sc Example.hw_149 in
  named_members dev = ["chan01"; "chan04"; "chan09"]
  /\ ScalerCH.read_attrs (ScalerCH.channels dev)
     = map (fun id => "sc_channels_" ++ id) Example.chan_ids
  /\ ScalerCH.configuration_attrs (ScalerCH.channels dev)
     = map (fun id => "sc_channels_" ++ id) Example.chan_ids
  /\ ScalerCH.read_attrs (ScalerCH.channels dev) <> ["chan01"; "chan04"; "chan09"].
Proof.
  cbv zeta. repeat split; try (vm_compute; reflexivity).
  intros H. vm_compute in H. discriminate H.
Qed.

(** Under any naming the initial read sets are the same whatever the control
    system holds, and each entry is the display name of a sub-device. *)
Lemma init_active_channels_ignore_hw fw hw hw' prefix_ name_ :
  ScalerCH.read_attrs (ScalerCH.channels (ScalerCH.init fw hw prefix_ name_))
  = ScalerCH.read_attrs (ScalerCH.channels (ScalerCH.init fw hw' prefix_ name_)).
Proof. now rewrite !init_read_attrs. Qed.

Lemma init_active_channels_are_names fw hw prefix_ name_ x :
  In x (ScalerCH.read_attrs (ScalerCH.channels (ScalerCH.init fw hw prefix_ name_))) ->
  exists id ch,
    In (id, ch) (ScalerCH.components (ScalerCH.channels (ScalerCH.init fw hw prefix_ name_)))
    /\ ScalerChannel.name ch = x.
Proof.
  unfold ScalerCH.init.
  rewrite read_attrs_set_attrs, components_set_attrs, active_loop_spec, app_nil_l.
  intros Hin. apply filter_In in Hin as [Hin _].
  apply in_map_iff in Hin as [[id ch] [Hx Hin]].
  exists id, ch. split; [exact Hin|exact Hx].
Qed.

(** ** [select_channels] on a constructed device *)

(** C2 (as the code behaves): on the constructed device a request for the
    name nonexistent raises AttributeError ('str' object has no attribute
    'get') while the reverse lookup is being built, not the error that names
    the channel and lists the known names; the read sets are those from before
    the call. *)
Theorem select_unknown_name_raises_attribute_error :
  let dev := Example.sc Example.hw_149 in
  let out := ScalerCH.select_channels Example.hw_149 ["nonexistent"] dev in
  out = Raised (Py.AttributeError "'str' object has no attribute 'get'")
               (ScalerCH.match_names Example.hw_149 dev)
  /\ (forall template ch named self', out <> Raised (Py.RuntimeError template ch named) self')
  /\ ScalerCH.read_attrs (ScalerCH.channels (after out))
     = ScalerCH.read_attrs (ScalerCH.channels dev)
  /\ ScalerCH.configuration_attrs (ScalerCH.channels (after out))
     = ScalerCH.configuration_attrs (ScalerCH.channels dev).
Proof.
  cbv zeta. unfold Example.sc.
  rewrite select_channels_on_constructed.
  repeat split. intros template ch named self' H. discriminate H.
Qed.

(** C3 (as the code behaves): with channels 3 and 5 named A and B, the call
    select_channels(["A", "B"]) on the constructed device raises
    AttributeError and leaves the read sets as construction set them; they
    are not [chan01; chan03; chan05]. *)
Theorem select_A_B_raises_attribute_error :
  let dev := Example.sc Example.hw_AB in
  let out := ScalerCH.select_channels Example.hw_AB ["A"; "B"] dev in
  named_members dev = ["chan03"; "chan05"]
  /\ out = Raised (Py.AttributeError "'str' object has no attribute 'get'")
                  (ScalerCH.match_names Example.hw_AB dev)
  /\ ScalerCH.read_attrs (ScalerCH.channels (after out))
     = ScalerCH.read_attrs (ScalerCH.channels dev)
  /\ ScalerCH.read_attrs (ScalerCH.channels (after out)) <> ["chan01"; "chan03"; "chan05"].
Proof.
  cbv zeta. unfold Example.sc.
  rewrite select_channels_on_constructed.
  split; [vm_compute; reflexivity|].
  repeat split. intros H. vm_compute in H. discriminate H.
Qed.

(** C4 (as the code behaves): with channels 2 and 6 both named X, the call
    select_channels(["X"]) on the constructed device raises AttributeError
    at the first member, before any name enters the reverse lookup, and
    selects no channel: the read sets are not [chan01; chan06]. *)
Theorem select_duplicate_name_raises_attribute_error :
  let dev := Example.sc Example.hw_XX in
  let out := ScalerCH.select_channels Example.hw_XX ["X"] dev in
  named_members dev = ["chan02"; "chan06"]
  /\ ScalerCH.name_map_loop Example.hw_XX (ScalerCH.components (ScalerCH.channels dev)) []
     = inl (Py.AttributeError "'str' object has no attribute 'get'")
  /\ out = Raised (Py.AttributeError "'str' object has no attribute 'get'")
                  (ScalerCH.match_names Example.hw_XX dev)
  /\ ScalerCH.read_attrs (ScalerCH.channels (after out)) <> ["chan01"; "chan06"].
Proof.
  cbv zeta. unfold Example.sc.
  rewrite select_channels_on_constructed.
  split; [vm_compute; reflexivity|].
  split; [vm_compute; reflexivity|].
  split; [reflexivity|].
  intros H. vm_compute in H. discriminate H.
Qed.

(** C7 (as the code behaves): with channels 3 and 5 named A and B, the call
    select_channels(["A", "B"]) on the constructed device raises before the
    hints are assigned: they keep the value they had before the call and are
    not the fields list [A; B]. *)
Theorem select_A_B_leaves_hints :
  let dev := Example.sc Example.hw_AB in
  let out := ScalerCH.select_channels Example.hw_AB ["A"; "B"] dev in
  ScalerCH.hint_fields (ScalerCH.components (ScalerCH.channels dev)) ["chan03"; "chan05"]
  = inr ["A"; "B"]
  /\ ScalerCH.hints (after out) = ScalerCH.hints dev
  /\ ScalerCH.hints (after out) <> [("fields", ["A"; "B"])].
Proof.
  cbv zeta. unfold Example.sc.
  rewrite select_channels_on_constructed.
  split; [vm_compute; reflexivity|].
  split; [reflexivity|].
  intros H. vm_compute in H. discriminate H.
Qed.

(** ** [select_channels] on any device *)

(** C8: every call of select_channels runs match_names first.  However the
    call ends, the members of the device afterwards are the members as
    match_names leaves them, so each count-value field carries the current
    value of its name field; and when the call raises, the read set and the
    configuration read set are the ones from before the call, while the
    re-synchronised display names stay. *)
Theorem select_channels_resyncs_first (hw : HW) (chan_names : list string) (self : ScalerCH.t) :
  let out := ScalerCH.select_channels hw chan_names self in
  ScalerCH.components (ScalerCH.channels (after out))
  = ScalerCH.components (ScalerCH.channels (ScalerCH.match_names hw self))
  /\ Forall (fun e => synced hw (snd e)) (ScalerCH.components (ScalerCH.channels (after out)))
  /\ Py.keys (ScalerCH.components (ScalerCH.channels (after out)))
     = Py.keys (ScalerCH.components (ScalerCH.channels self))
  /\ match out with
     | Raised _ self' =>
         ScalerCH.read_attrs (ScalerCH.channels self')
         = ScalerCH.read_attrs (ScalerCH.channels self)
         /\ ScalerCH.configuration_attrs (ScalerCH.channels self')
            = ScalerCH.configuration_attrs (ScalerCH.channels self)
     | Returned _ => True
     end.
Proof.
  cbv zeta.
  assert (Hc : ScalerCH.components (ScalerCH.channels
                 (after (ScalerCH.select_channels hw chan_names self)))
               = ScalerCH.components (ScalerCH.channels (ScalerCH.match_names hw self))).
  { destruct (select_channels_cases hw chan_names self) as [[e He]|(nm & ids & fs & _ & _ & _ & He)];
      rewrite He; reflexivity. }
  split; [exact Hc|].
  split; [rewrite Hc; apply match_names_synced|].
  split; [rewrite Hc; apply match_names_keys|].
  destruct (select_channels_cases hw chan_names self) as [[e He]|(nm & ids & fs & _ & _ & _ & He)];
    rewrite He; [|exact I].
  split; reflexivity.
Qed.

(** A device built while only channels 1, 4 and 9 were named, asked for A
    after channels 3 and 5 were renamed A and B: the call raises, the read
    sets are untouched, and the count-value names have moved to the new
    values. *)
Example select_channels_keeps_new_names :
  let dev := Example.sc Example.hw_149 in
  let out := ScalerCH.select_channels Example.hw_AB ["A"] dev in
  named_members dev = ["chan01"; "chan04"; "chan09"]
  /\ named_members (after out) = ["chan03"; "chan05"]
  /\ ScalerCH.read_attrs (ScalerCH.channels (after out))
     = ScalerCH.read_attrs (ScalerCH.channels dev).
Proof. vm_compute. repeat split. Qed.

(** [select_channels] is [match_names], the dict comprehension and then the
    remaining statements. *)
Lemma select_channels_stages hw chan_names self :
  ScalerCH.select_channels hw chan_names self
  = match ScalerCH.name_map_loop hw (ScalerCH.components (ScalerCH.channels
                                       (ScalerCH.match_names hw self))) [] with
    | inl e => Raised e (ScalerCH.match_names hw self)
    | inr name_map => ScalerCH.select_tail name_map chan_names (ScalerCH.match_names hw self)
    end.
Proof. reflexivity. Qed.

(** How the remaining statements end, for any reverse lookup: with the
    device untouched (a requested name is no key), with both sets assigned
    the one list and the hints not yet (an identifier of the lookup is no
    member), or with both sets and the hints assigned. *)
Lemma select_tail_cases name_map chan_names self :
  (exists e, ScalerCH.select_tail name_map chan_names self = Raised e self)
  \/ (exists ids,
         Forall2 (fun ch s => Py.get ch name_map = Some s) chan_names ids
         /\ ((exists e, ScalerCH.select_tail name_map chan_names self
                        = Raised e (ScalerCH.set_attrs ("chan01" :: ids) self))
             \/ (exists fs, ScalerCH.select_tail name_map chan_names self
                            = Returned (ScalerCH.set_hints fs
                                          (ScalerCH.set_attrs ("chan01" :: ids) self))))).
Proof.
  unfold ScalerCH.select_tail.
  destruct (ScalerCH.read_attrs_loop name_map chan_names ["chan01"]) as [e|r] eqn:Hr;
    [left; eauto|].
  destruct (read_attrs_loop_inr _ _ _ _ Hr) as (ids & -> & Hids).
  right. exists ids. split; [exact Hids|].
  cbn [app tl].
  destruct (ScalerCH.hint_fields _ ids) as [e|fs]; [left|right]; eauto.
Qed.

Lemma step_keeps_agreement self op :
  ScalerCH.read_attrs (ScalerCH.channels self)
  = ScalerCH.configuration_attrs (ScalerCH.channels self) ->
  ScalerCH.read_attrs (ScalerCH.channels (ScalerCH.step self op))
  = ScalerCH.configuration_attrs (ScalerCH.channels (ScalerCH.step self op)).
Proof.
  intros H. destruct op as [hw|hw chan_names]; cbn [ScalerCH.step].
  - exact H.
  - destruct (select_channels_cases hw chan_names self)
      as [[e He]|(nm & ids & fs & _ & _ & _ & He)]; rewrite He; cbn [after].
    + exact H.
    + reflexivity.
Qed.

Lemma run_keeps_agreement ops :
  forall self,
    ScalerCH.read_attrs (ScalerCH.channels self)
    = ScalerCH.configuration_attrs (ScalerCH.channels self) ->
    ScalerCH.read_attrs (ScalerCH.channels (ScalerCH.run ops self))
    = ScalerCH.configuration_attrs (ScalerCH.channels (ScalerCH.run ops self)).
Proof.
  unfold ScalerCH.run.
  induction ops as [|op rest IH]; cbn [fold_left]; intros self H; [exact H|].
  apply IH, step_keeps_agreement, H.
Qed.

(** C9: construction assigns the list of active channels it has just
    computed to the read set and to the configuration read set, whatever the
    two held before, so they are equal lists.  A call of select_channels
    that returns leaves them equal, and one that raises leaves each as it
    was; the statements after the reverse lookup, whenever they are reached,
    assign one list starting with chan01 to both sets or touch neither;
    match_names touches neither.  Hence after construction followed by any
    sequence of match_names and select_channels calls, raising ones
    included, the two sets are equal. *)
Theorem read_sets_agree (fw : Framework) (hw hw' : HW) (prefix_ name_ : string)
        (chan_names : list string) (self : ScalerCH.t)
        (name_map : Py.dict string) (ops : list ScalerCH.Op) :
  ScalerCH.read_attrs (ScalerCH.channels (ScalerCH.init fw hw prefix_ name_))
  = ScalerCH.configuration_attrs (ScalerCH.channels (ScalerCH.init fw hw prefix_ name_))
  /\ match ScalerCH.select_channels hw' chan_names self with
     | Returned self' =>
         ScalerCH.read_attrs (ScalerCH.channels self')
         = ScalerCH.configuration_attrs (ScalerCH.channels self')
     | Raised _ self' =>
         ScalerCH.read_attrs (ScalerCH.channels self')
         = ScalerCH.read_attrs (ScalerCH.channels self)
         /\ ScalerCH.configuration_attrs (ScalerCH.channels self')
            = ScalerCH.configuration_attrs (ScalerCH.channels self)
     end
  /\ ScalerCH.read_attrs (ScalerCH.channels (ScalerCH.match_names hw' self))
     = ScalerCH.read_attrs (ScalerCH.channels self)
  /\ ScalerCH.configuration_attrs (ScalerCH.channels (ScalerCH.match_names hw' self))
     = ScalerCH.configuration_attrs (ScalerCH.channels self)
  /\ (ScalerCH.read_attrs (ScalerCH.channels (ScalerCH.init fw hw prefix_ name_))
      = ScalerCH.active_loop
          (ScalerCH.components (ScalerCH.channels (ScalerCH.Device_init fw hw prefix_ name_))) []
      /\ ScalerCH.configuration_attrs (ScalerCH.channels (ScalerCH.init fw hw prefix_ name_))
         = ScalerCH.active_loop
             (ScalerCH.components (ScalerCH.channels (ScalerCH.Device_init fw hw prefix_ name_))) [])
  /\ match ScalerCH.select_tail name_map chan_names self with
     | Returned self' =>
         ScalerCH.read_attrs (ScalerCH.channels self')
         = ScalerCH.configuration_attrs (ScalerCH.channels self')
         /\ firstn 1 (ScalerCH.read_attrs (ScalerCH.channels self')) = ["chan01"]
         /\ List.length (ScalerCH.read_attrs (ScalerCH.channels self'))
            = S (List.length chan_names)
     | Raised _ self' =>
         (ScalerCH.read_attrs (ScalerCH.channels self')
          = ScalerCH.read_attrs (ScalerCH.channels self)
          /\ ScalerCH.configuration_attrs (ScalerCH.channels self')
             = ScalerCH.configuration_attrs (ScalerCH.channels self))
         \/ (ScalerCH.read_attrs (ScalerCH.channels self')
             = ScalerCH.configuration_attrs (ScalerCH.channels self')
             /\ firstn 1 (ScalerCH.read_attrs (ScalerCH.channels self')) = ["chan01"])
     end
  /\ ScalerCH.read_attrs
       (ScalerCH.channels (ScalerCH.run ops (ScalerCH.init fw hw prefix_ name_)))
     = ScalerCH.configuration_attrs
         (ScalerCH.channels (ScalerCH.run ops (ScalerCH.init fw hw prefix_ name_))).
Proof.
  assert (Hinit : ScalerCH.read_attrs (ScalerCH.channels (ScalerCH.init fw hw prefix_ name_))
                  = ScalerCH.configuration_attrs
                      (ScalerCH.channels (ScalerCH.init fw hw prefix_ name_))).
  { unfold ScalerCH.init.
    now rewrite read_attrs_set_attrs, configuration_attrs_set_attrs. }
  split; [exact Hinit|].
  split.
  { destruct (select_channels_cases hw' chan_names self)
      as [[e He]|(nm & ids & fs & _ & _ & _ & He)]; rewrite He.
    - split; reflexivity.
    - reflexivity. }
  split; [reflexivity|]. split; [reflexivity|].
  split.
  { unfold ScalerCH.init.
    rewrite read_attrs_set_attrs, configuration_attrs_set_attrs. split; reflexivity. }
  split.
  { destruct (select_tail_cases name_map chan_names self)
      as [[e He]|(ids & Hids & [[e He]|[fs He]])]; rewrite He.
    - left. split; reflexivity.
    - right. split; reflexivity.
    - split; [reflexivity|]. split; [reflexivity|].
      cbn. f_equal. symmetry. exact (Forall2_length Hids). }
  apply run_keeps_agreement, Hinit.
Qed.

(** Under a framework whose defaults for the two sets differ, the sets
    differ before the loop of the constructor and agree after it; they stay
    as the constructor left them through a raising selection, a
    synchronisation and another selection. *)
Example read_sets_agree_after_construction :
  let base := ScalerCH.Device_init Example.split_fw Example.hw_AB "XF:SC" "sc" in
  let dev := ScalerCH.init Example.split_fw Example.hw_AB "XF:SC" "sc" in
  let ops := [ScalerCH.CallSelectChannels Example.hw_AB ["A"; "B"];
              ScalerCH.CallMatchNames Example.hw_XX;
              ScalerCH.CallSelectChannels Example.hw_XX []] in
  ScalerCH.read_attrs (ScalerCH.channels base)
  <> ScalerCH.configuration_attrs (ScalerCH.channels base)
  /\ ScalerCH.read_attrs (ScalerCH.channels dev)
     = map (fun id => "sc_channels_" ++ id) Example.chan_ids
  /\ ScalerCH.configuration_attrs (ScalerCH.channels dev)
     = map (fun id => "sc_channels_" ++ id) Example.chan_ids
  /\ ScalerCH.read_attrs (ScalerCH.channels (ScalerCH.run ops dev))
     = ScalerCH.read_attrs (ScalerCH.channels dev)
  /\ ScalerCH.configuration_attrs (ScalerCH.channels (ScalerCH.run ops dev))
     = ScalerCH.configuration_attrs (ScalerCH.channels dev).
Proof.
  cbv zeta. split.
  - intros H. vm_compute in H. discriminate H.
  - repeat split; vm_compute; reflexivity.
Qed.

(** The assignments after the reverse lookup, on the 32-channel device with
    channels 3 and 5 named A and B and a lookup from those two names in
    hand: both sets become [chan01; chan03; chan05]. *)
Example select_tail_assigns_both :
  let dev := ScalerCH.match_names Example.hw_AB (Example.sc Example.hw_AB) in
  let out := ScalerCH.select_tail [("A", "chan03"); ("B", "chan05")] ["A"; "B"] dev in
  ScalerCH.read_attrs (ScalerCH.channels (after out)) = ["chan01"; "chan03"; "chan05"]
  /\ ScalerCH.configuration_attrs (ScalerCH.channels (after out))
     = ["chan01"; "chan03"; "chan05"]
  /\ ScalerCH.hints (after out) = [("fields", ["A"; "B"])]
  /\ out = Returned (after out).
Proof. vm_compute. repeat split. Qed.

(** ** What the selection does once a reverse lookup exists *)

(** A call that returns has put [chan01] first and then the identifier each
    requested name resolves to, in the caller's order, in both read sets, and
    the count-value names of exactly those identifiers in the hints. *)
Lemma select_channels_returned hw chan_names self self' :
  ScalerCH.select_channels hw chan_names self = Returned self' ->
  exists nm ids fs,
    ScalerCH.name_map_loop hw (ScalerCH.components (ScalerCH.channels
                                 (ScalerCH.match_names hw self))) [] = inr nm
    /\ Forall2 (fun ch s => Py.get ch nm = Some s) chan_names ids
    /\ ScalerCH.read_attrs (ScalerCH.channels self') = "chan01" :: ids
    /\ ScalerCH.configuration_attrs (ScalerCH.channels self') = "chan01" :: ids
    /\ ScalerCH.hint_fields (ScalerCH.components (ScalerCH.channels self')) ids = inr fs
    /\ ScalerCH.hints self' = [("fields", fs)].
Proof.
  intros H.
  destruct (select_channels_cases hw chan_names self)
    as [[e He]|(nm & ids & fs & Hnm & Hids & Hfs & He)]; rewrite He in H.
  - discriminate H.
  - injection H as <-. exists nm, ids, fs. repeat split; assumption.
Qed.

(** Two assignments under one key leave the later identifier. *)
Lemma name_map_last_write_wins (name_map : Py.dict string) k s1 s2 :
  Py.get k (Py.set k s2 (Py.set k s1 name_map)) = Some s2.
Proof. apply get_set_same. Qed.

(** * Further properties of the module *)

(** ** Rendering of indices *)

Lemma to_int_proper (z : Z) : Z.to_int z <> Decimal.Pos Decimal.Nil /\ Z.to_int z <> Decimal.Neg Decimal.Nil.
Proof.
  destruct z as [|p|p]; simpl; split; try discriminate;
    intros H; injection H as H; exact (DecimalPos.Unsigned.to_uint_nonnil p H).
Qed.

(** The rendering can be read back. *)
Lemma int_of_str_int (z : Z) : NilZero.int_of_string (Py.str_int z) = Some (Z.to_int z).
Proof.
  unfold Py.str_int. destruct (to_int_proper z) as [Hp Hn].
  now apply NilZero.isi.
Qed.

Lemma str_int_inj (i j : Z) : Py.str_int i = Py.str_int j -> i = j.
Proof.
  intros H. apply DecimalZ.to_int_inj.
  pose proof (int_of_str_int i) as Hi. rewrite H, int_of_str_int in Hi.
  now injection Hi.
Qed.

Lemma append_inv_head (a b c : string) : a ++ b = a ++ c -> b = c.
Proof.
  induction a as [|x a IH]; simpl; intros H.
  - exact H.
  - injection H as H. auto.
Qed.

Lemma string_of_uint_nonempty d : NilZero.string_of_uint d <> "".
Proof. destruct d; simpl; discriminate. Qed.

Lemma zfill_long width digits :
  (width <= String.length digits)%nat -> Py.zfill width digits = digits.
Proof.
  intros H. unfold Py.zfill.
  replace (width - String.length digits)%nat with O by lia. reflexivity.
Qed.

(** A positive number below ten is the only one with a single digit. *)
Lemma str_int_two_digits (k : Z) : (10 <= k)%Z -> (2 <= String.length (Py.str_int k))%nat.
Proof.
  intros Hk. destruct k as [|p|p]; try lia.
  unfold Py.str_int. cbn [Z.to_int NilZero.string_of_int].
  pose proof (DecimalPos.Unsigned.of_to p) as Hof.
  destruct (Pos.to_uint p) as [|d|d|d|d|d|d|d|d|d|d];
    try (cbn in Hof; discriminate Hof);
    destruct d; cbn [NilZero.string_of_uint NilEmpty.string_of_uint String.length];
      try lia; cbn in Hof; first [discriminate Hof | injection Hof as Hof; lia].
Qed.

(** The padded rendering against the plain one: a zero in front of a single
    digit, the plain rendering otherwise (a sign fills the width). *)
Lemma fmt_02d_cases (k : Z) :
  Py.fmt_02d k = if ((0 <=? k) && (k <? 10))%Z then "0" ++ Py.str_int k else Py.str_int k.
Proof.
  destruct (Z.leb_spec 0 k) as [H0|H0]; cbn [andb].
  - destruct (Z.ltb_spec k 10) as [H10|H10].
    + assert (Hk : (k = 0 \/ k = 1 \/ k = 2 \/ k = 3 \/ k = 4 \/ k = 5 \/ k = 6
                    \/ k = 7 \/ k = 8 \/ k = 9)%Z) by lia.
      repeat (destruct Hk as [->|Hk]; [reflexivity|]). subst k. reflexivity.
    + unfold Py.fmt_02d. destruct (Z.ltb_spec k 0); [lia|].
      apply zfill_long, str_int_two_digits. lia.
  - destruct k as [|p|p]; try lia.
    unfold Py.fmt_02d. cbn [Z.ltb Z.compare Z.opp].
    unfold Py.str_int. cbn [Z.to_int NilZero.string_of_int].
    rewrite zfill_long; [reflexivity|].
    pose proof (string_of_uint_nonempty (Pos.to_uint p)) as Hne.
    destruct (NilZero.string_of_uint (Pos.to_uint p)); [contradiction|simpl; lia].
Qed.

Lemma padded_digit_is_not_plain (i j : Z) :
  (0 <= i < 10)%Z -> "0" ++ Py.str_int i = Py.str_int j -> (0 <= j < 10)%Z.
Proof.
  intros Hi H.
  pose proof (int_of_str_int j) as Hj. rewrite <- H in Hj.
  assert (Hk : (i = 0 \/ i = 1 \/ i = 2 \/ i = 3 \/ i = 4 \/ i = 5 \/ i = 6
                \/ i = 7 \/ i = 8 \/ i = 9)%Z) by lia.
  rewrite <- (DecimalZ.of_to j).
  repeat (destruct Hk as [->|Hk];
          [cbn in Hj; injection Hj as <-; cbn; lia|]).
  subst i. cbn in Hj. injection Hj as <-. cbn. lia.
Qed.

Lemma fmt_02d_inj (i j : Z) : Py.fmt_02d i = Py.fmt_02d j -> i = j.
Proof.
  rewrite !fmt_02d_cases.
  destruct ((0 <=? i) && (i <? 10))%Z eqn:Ei; destruct ((0 <=? j) && (j <? 10))%Z eqn:Ej;
    intros H.
  - apply str_int_inj. now apply (append_inv_head "0").
  - apply andb_true_iff in Ei as [Ei1 Ei2].
    apply Z.leb_le in Ei1. apply Z.ltb_lt in Ei2.
    pose proof (padded_digit_is_not_plain i j (conj Ei1 Ei2) H) as Hj.
    assert (((0 <=? j) && (j <? 10))%Z = true).
    { apply andb_true_iff. split; [apply Z.leb_le|apply Z.ltb_lt]; lia. }
    congruence.
  - apply andb_true_iff in Ej as [Ej1 Ej2].
    apply Z.leb_le in Ej1. apply Z.ltb_lt in Ej2.
    pose proof (padded_digit_is_not_plain j i (conj Ej1 Ej2) (eq_sym H)) as Hi.
    assert (((0 <=? i) && (i <? 10))%Z = true).
    { apply andb_true_iff. split; [apply Z.leb_le|apply Z.ltb_lt]; lia. }
    congruence.
  - now apply str_int_inj.
Qed.

(** ** The generators over an arbitrary range *)

Section DictInvariants.
Context {V : Type}.
Implicit Types (d : Py.dict V) (k : string) (v : V).

(** Assignment keeps the keys of a dictionary pairwise different. *)
Lemma set_keys_NoDup k v d : NoDup (Py.keys d) -> NoDup (Py.keys (Py.set k v d)).
Proof.
  induction d as [|[k0 v0] d IH]; simpl; intros Hnd.
  - constructor; [intros []|constructor].
  - inversion Hnd as [|? ? Hnotin Hnd']; subst.
    destruct (String.eqb k k0) eqn:E; simpl.
    + constructor; assumption.
    + constructor; [|auto].
      intros Hin. apply keys_set in Hin as [->|Hin].
      * rewrite String.eqb_refl in E. discriminate.
      * contradiction.
Qed.

Lemma set_Forall (P : string * V -> Prop) k v d :
  Forall P d -> P (k, v) -> Forall P (Py.set k v d).
Proof.
  induction d as [|[k0 v0] d IH]; simpl; intros Hd Hkv.
  - constructor; [exact Hkv|constructor].
  - inversion Hd as [|? ? H0 Hd']; subst.
    destruct (String.eqb k k0) eqn:E.
    + apply String.eqb_eq in E. subst k0. constructor; assumption.
    + constructor; auto.
Qed.

Lemma set_length k v d :
  (List.length d <= List.length (Py.set k v d) <= S (List.length d))%nat.
Proof.
  induction d as [|[k0 v0] d IH]; simpl.
  - lia.
  - destruct (String.eqb k k0); simpl; lia.
Qed.

(** The shape both generators share: one assignment per index of the range,
    in range order. *)
Variable key : Z -> string.
Variable val : Z -> V.

Fixpoint assign_all (range_ : list Z) (defn : Py.dict V) : Py.dict V :=
  match range_ with
  | [] => defn
  | i :: rest => assign_all rest (Py.set (key i) (val i) defn)
  end.

Lemma assign_all_keys_NoDup range_ :
  forall defn, NoDup (Py.keys defn) -> NoDup (Py.keys (assign_all range_ defn)).
Proof.
  induction range_ as [|i rest IH]; simpl; intros defn H; [exact H|].
  apply IH, set_keys_NoDup, H.
Qed.

Lemma assign_all_Forall (P : string * V -> Prop) range_ :
  forall defn,
    Forall P defn -> Forall (fun i => P (key i, val i)) range_ ->
    Forall P (assign_all range_ defn).
Proof.
  induction range_ as [|i rest IH]; simpl; intros defn Hd Hr; [exact Hd|].
  inversion Hr; subst. apply IH; [apply set_Forall|]; assumption.
Qed.

Lemma assign_all_length range_ :
  forall defn,
    (List.length defn <= List.length (assign_all range_ defn)
     <= List.length defn + List.length range_)%nat.
Proof.
  induction range_ as [|i rest IH]; simpl; intros defn; [lia|].
  pose proof (IH (Py.set (key i) (val i) defn)).
  pose proof (set_length (key i) (val i) defn). lia.
Qed.

Lemma assign_all_get_other range_ k :
  ~ In k (map key range_) ->
  forall defn, Py.get k (assign_all range_ defn) = Py.get k defn.
Proof.
  induction range_ as [|i rest IH]; simpl; intros Hk defn; [reflexivity|].
  rewrite IH by tauto. rewrite get_set.
  destruct (String.eqb k (key i)) eqn:E; [|reflexivity].
  apply String.eqb_eq in E. exfalso. apply Hk. left. now symmetry.
Qed.

Hypothesis key_inj : forall i j, key i = key j -> i = j.

(** Every index of the range can be looked up under its own key and gives
    its own value, also when the range repeats indices. *)
Lemma assign_all_get range_ :
  forall defn i, In i range_ -> Py.get (key i) (assign_all range_ defn) = Some (val i).
Proof.
  induction range_ as [|j rest IH]; simpl; intros defn i Hin; [contradiction|].
  destruct (in_dec Z.eq_dec i rest) as [Hrest|Hrest]; [now apply IH|].
  destruct Hin as [->|Hin]; [|contradiction].
  rewrite assign_all_get_other.
  - apply get_set_same.
  - intros Hk. apply in_map_iff in Hk as [j [Hj Hjin]].
    apply key_inj in Hj. subst j. contradiction.
Qed.

Lemma map_key_NoDup range_ : NoDup range_ -> NoDup (map key range_).
Proof.
  induction 1 as [|i rest Hnotin _ IH]; simpl; constructor; [|exact IH].
  intros Hin. apply in_map_iff in Hin as [j [Hj Hjin]].
  apply key_inj in Hj. subst j. contradiction.
Qed.
End DictInvariants.

Lemma _scaler_fields_loop_assign {Cls Kw : Type} (cls : Cls) attr_base field_base
      (kwargs : Kw) range_ :
  forall defn,
    _scaler_fields_loop cls attr_base field_base range_ kwargs defn
    = assign_all (fun i => attr_base ++ Py.str_int i)
                 (fun i => (cls, field_base ++ Py.str_int i, kwargs)) range_ defn.
Proof. induction range_ as [|i rest IH]; simpl; intros defn; [reflexivity|apply IH]. Qed.

Lemma _sc_chans_loop_assign attr_fix id_range :
  forall defn,
    _sc_chans_loop attr_fix id_range defn
    = assign_all (fun k => attr_fix ++ Py.fmt_02d k)
                 (fun k => (ScalerChannelCls, "", {| kw_ch_num := k; kw_kind := HINTED |}))
                 id_range defn.
Proof. induction id_range as [|k rest IH]; simpl; intros defn; [reflexivity|apply IH]. Qed.

Lemma attr_key_inj attr_base (i j : Z) :
  attr_base ++ Py.str_int i = attr_base ++ Py.str_int j -> i = j.
Proof. intros H. apply str_int_inj. exact (append_inv_head _ _ _ H). Qed.

Lemma chan_key_inj attr_fix (i j : Z) :
  attr_fix ++ Py.fmt_02d i = attr_fix ++ Py.fmt_02d j -> i = j.
Proof. intros H. apply fmt_02d_inj. exact (append_inv_head _ _ _ H). Qed.

(** For every range, repeated indices included: the keys of the table are
    pairwise different; every entry pairs the attribute and the suffix of one
    and the same index of the range, with the class and options given; every
    index of the range is found under its attribute name; and the table has
    at most one entry per element of the range. *)
Theorem _scaler_fields_any_range {Cls Kw : Type} (cls : Cls) (attr_base field_base : string)
        (range_ : list Z) (kwargs : Kw) :
  let defn := _scaler_fields cls attr_base field_base range_ kwargs in
  NoDup (Py.keys defn)
  /\ Forall (fun e => exists i, In i range_
                      /\ e = (attr_base ++ Py.str_int i,
                              (cls, field_base ++ Py.str_int i, kwargs))) defn
  /\ Forall (fun i => Py.get (attr_base ++ Py.str_int i) defn
                      = Some (cls, field_base ++ Py.str_int i, kwargs)) range_
  /\ (List.length defn <= List.length range_)%nat.
Proof.
  cbv zeta. unfold _scaler_fields. rewrite _scaler_fields_loop_assign.
  repeat split.
  - apply assign_all_keys_NoDup. constructor.
  - apply assign_all_Forall; [constructor|].
    apply Forall_forall. intros i Hi. exists i. split; [exact Hi|reflexivity].
  - apply Forall_forall. intros i Hi.
    apply (assign_all_get (fun i => attr_base ++ Py.str_int i)
                          (fun i => (cls, field_base ++ Py.str_int i, kwargs))
                          (attr_key_inj attr_base)).
    exact Hi.
  - apply (assign_all_length (fun i => attr_base ++ Py.str_int i)
                             (fun i => (cls, field_base ++ Py.str_int i, kwargs))
                             range_ []).
Qed.

(** Over a range without repeated indices, in whatever order, the table has
    exactly one entry per index, in the order of the range. *)
Theorem _scaler_fields_distinct_range {Cls Kw : Type} (cls : Cls)
        (attr_base field_base : string) (range_ : list Z) (kwargs : Kw) :
  NoDup range_ ->
  _scaler_fields cls attr_base field_base range_ kwargs
  = map (fun i => (attr_base ++ Py.str_int i, (cls, field_base ++ Py.str_int i, kwargs)))
        range_.
Proof.
  intros Hnd. apply _scaler_fields_fresh.
  exact (map_key_NoDup _ (attr_key_inj attr_base) _ Hnd).
Qed.

Lemma _scaler_fields_distinct_range_witness :
  NoDup [12; -3; 0]%Z
  /\ _scaler_fields EpicsSignal "preset" ".PR" [12; -3; 0]%Z OMITTED
     = [("preset12", (EpicsSignal, ".PR12", OMITTED));
        ("preset-3", (EpicsSignal, ".PR-3", OMITTED));
        ("preset0", (EpicsSignal, ".PR0", OMITTED))].
Proof.
  assert (Hnd : NoDup [12; -3; 0]%Z).
  { repeat constructor; simpl; intros H; repeat destruct H as [H|H]; try discriminate H; exact H. }
  split; [exact Hnd|].
  exact (_scaler_fields_distinct_range EpicsSignal "preset" ".PR" [12; -3; 0]%Z OMITTED Hnd).
Defined.

(** The channel-set generator, for every range: pairwise different keys;
    every entry is the identifier of its own channel index, with the
    ScalerChannel class, the empty suffix and the hinted kind; every index of
    the range is found under its identifier. *)
Theorem _sc_chans_any_range (attr_fix : string) (id_range : list Z) :
  let defn := _sc_chans attr_fix id_range in
  NoDup (Py.keys defn)
  /\ Forall (fun e => In (kw_ch_num (snd (snd e))) id_range
                      /\ fst e = attr_fix ++ Py.fmt_02d (kw_ch_num (snd (snd e)))
                      /\ fst (snd e) = (ScalerChannelCls, "")
                      /\ kw_kind (snd (snd e)) = HINTED) defn
  /\ Forall (fun k => Py.get (attr_fix ++ Py.fmt_02d k) defn
                      = Some (ScalerChannelCls, "", {| kw_ch_num := k; kw_kind := HINTED |}))
            id_range
  /\ (List.length defn <= List.length id_range)%nat.
Proof.
  cbv zeta. unfold _sc_chans. rewrite _sc_chans_loop_assign.
  repeat split.
  - apply assign_all_keys_NoDup. constructor.
  - apply assign_all_Forall; [constructor|].
    apply Forall_forall. intros k Hk. simpl. auto.
  - apply Forall_forall. intros k Hk.
    apply (assign_all_get (fun k => attr_fix ++ Py.fmt_02d k)
             (fun k => (ScalerChannelCls, "", {| kw_ch_num := k; kw_kind := HINTED |}))
             (chan_key_inj attr_fix)).
    exact Hk.
  - apply (assign_all_length (fun k => attr_fix ++ Py.fmt_02d k)
             (fun k => (ScalerChannelCls, "", {| kw_ch_num := k; kw_kind := HINTED |}))
             id_range []).
Qed.

(** Over a range without repeated indices the channel table has exactly one
    entry per index, in range order; identifiers are padded to two digits
    below ten and grow beyond two digits from one hundred on. *)
Theorem _sc_chans_distinct_range (attr_fix : string) (id_range : list Z) :
  NoDup id_range ->
  _sc_chans attr_fix id_range
  = map (fun k => (attr_fix ++ Py.fmt_02d k,
                   (ScalerChannelCls, "", {| kw_ch_num := k; kw_kind := HINTED |})))
        id_range.
Proof.
  intros Hnd. unfold _sc_chans. rewrite _sc_chans_loop_fresh; [reflexivity|].
  exact (map_key_NoDup _ (chan_key_inj attr_fix) _ Hnd).
Qed.

Lemma _sc_chans_distinct_range_witness :
  NoDup [100; 7; 0]%Z
  /\ Py.keys (_sc_chans "chan" [100; 7; 0]%Z) = ["chan100"; "chan07"; "chan00"].
Proof.
  assert (Hnd : NoDup [100; 7; 0]%Z).
  { repeat constructor; simpl; intros H; repeat destruct H as [H|H]; try discriminate H; exact H. }
  split; [exact Hnd|].
  rewrite (_sc_chans_distinct_range "chan" [100; 7; 0]%Z Hnd). reflexivity.
Defined.

(** ** Addresses of a channel *)

(** The addresses the four fields of a channel are bound to. *)
Definition ScalerChannel_pvnames (ch : ScalerChannel.t) : list string :=
  [ Signal.pvname (ScalerChannel.chname ch); Signal.pvname (ScalerChannel.s ch);
    Signal.pvname (ScalerChannel.preset ch); Signal.pvname (ScalerChannel.gate ch) ].

(** The four field markers of a formatted component. *)
Definition channel_fields : list string := [".NM"; ".S"; ".PR"; ".G"].

Lemma channel_field_inj f g (i j : Z) :
  In f channel_fields -> In g channel_fields ->
  f ++ Py.str_int i = g ++ Py.str_int j -> f = g /\ i = j.
Proof.
  unfold channel_fields. simpl. intros Hf Hg H.
  repeat destruct Hf as [<-|Hf]; try contradiction;
    repeat destruct Hg as [<-|Hg]; try contradiction;
      try (simpl in H; discriminate H);
      (split; [reflexivity|]; eapply attr_key_inj; exact H).
Qed.

Lemma init_pvnames fw hw prefix_ ch_num name_ kind_ :
  ScalerChannel_pvnames (ScalerChannel.init fw hw prefix_ ch_num name_ kind_)
  = map (fun f => prefix_ ++ f ++ Py.str_int ch_num) channel_fields.
Proof. reflexivity. Qed.

Lemma NoDup_map_on {A B : Type} (f : A -> B) (l : list A) :
  NoDup l -> (forall x y, In x l -> In y l -> f x = f y -> x = y) -> NoDup (map f l).
Proof.
  induction 1 as [|x rest Hnotin _ IH]; simpl; intros Hinj; constructor.
  - intros Hin. apply in_map_iff in Hin as [y [Hy Hyin]].
    assert (y = x) by (apply Hinj; auto). subst y. contradiction.
  - apply IH. intros a b Ha Hb. apply Hinj; auto.
Qed.

Lemma channel_fields_NoDup : NoDup channel_fields.
Proof. apply distinct_NoDup. reflexivity. Qed.

(** A channel constructed at address P with index i is bound to P.NMi, P.Si,
    P.PRi and P.Gi, which are four different addresses; and two channels of
    one parent address with different indices share no address. *)
Theorem ScalerChannel_addresses_distinct (fw : Framework) (hw hw' : HW) (prefix_ : string)
        (i j : Z) (name_i name_j : string) (kind_i kind_j : Kind) :
  i <> j ->
  let a := ScalerChannel.init fw hw prefix_ i name_i kind_i in
  let b := ScalerChannel.init fw hw' prefix_ j name_j kind_j in
  ScalerChannel_pvnames a
  = [prefix_ ++ ".NM" ++ Py.str_int i; prefix_ ++ ".S" ++ Py.str_int i;
     prefix_ ++ ".PR" ++ Py.str_int i; prefix_ ++ ".G" ++ Py.str_int i]
  /\ NoDup (ScalerChannel_pvnames a)
  /\ Forall (fun pv => ~ In pv (ScalerChannel_pvnames b)) (ScalerChannel_pvnames a).
Proof.
  intros Hij. cbv zeta. rewrite !init_pvnames.
  split; [reflexivity|]. split.
  - apply NoDup_map_on; [exact channel_fields_NoDup|].
    intros f g Hf Hg H. apply append_inv_head in H.
    exact (proj1 (channel_field_inj f g i i Hf Hg H)).
  - apply Forall_forall. intros pv Ha Hb.
    apply in_map_iff in Ha as [f [<- Hf]].
    apply in_map_iff in Hb as [g [Hg Hgin]].
    apply append_inv_head in Hg.
    destruct (channel_field_inj g f j i Hgin Hf Hg) as [_ Heq]. congruence.
Qed.

Lemma ScalerChannel_addresses_distinct_witness :
  (3 <> 5)%Z
  /\ ScalerChannel_pvnames
       (ScalerChannel.init Example.ophyd_fw Example.hw_AB "XF:SC" 3 "sc_channels_chan03" HINTED)
     = ["XF:SC.NM3"; "XF:SC.S3"; "XF:SC.PR3"; "XF:SC.G3"].
Proof.
  assert (H35 : (3 <> 5)%Z) by discriminate.
  split; [exact H35|].
  exact (proj1 (ScalerChannel_addresses_distinct
                  Example.ophyd_fw Example.hw_AB Example.hw_AB "XF:SC" 3 5
                  "sc_channels_chan03" "sc_channels_chan05" HINTED HINTED H35)).
Defined.

(** ** Synchronisation of names *)

Lemma match_name_twice (hw1 hw2 : HW) (ch : ScalerChannel.t) :
  ScalerChannel.match_name hw2 (ScalerChannel.match_name hw1 ch)
  = ScalerChannel.match_name hw2 ch.
Proof. reflexivity. Qed.

Lemma match_name_init fw hw hw' prefix_ ch_num name_ kind_ :
  ScalerChannel.match_name hw' (ScalerChannel.init fw hw prefix_ ch_num name_ kind_)
  = ScalerChannel.init fw hw' prefix_ ch_num name_ kind_.
Proof. reflexivity. Qed.

(** match_names on any device: the member identifiers and their order, the
    read sets, the hints, the device-level signals and the device's address
    and name are as before; every member carries the current value of its
    name field; and after two synchronisations in a row the device is what
    the later one alone produces, so a repeated synchronisation under an
    unchanged control system changes nothing. *)
Theorem match_names_frame_and_last_sync (hw1 hw2 : HW) (self : ScalerCH.t) :
  let self1 := ScalerCH.match_names hw1 self in
  Py.keys (ScalerCH.components (ScalerCH.channels self1))
  = Py.keys (ScalerCH.components (ScalerCH.channels self))
  /\ ScalerCH.read_attrs (ScalerCH.channels self1) = ScalerCH.read_attrs (ScalerCH.channels self)
  /\ ScalerCH.configuration_attrs (ScalerCH.channels self1)
     = ScalerCH.configuration_attrs (ScalerCH.channels self)
  /\ ScalerCH.hints self1 = ScalerCH.hints self
  /\ ScalerCH.signals self1 = ScalerCH.signals self
  /\ ScalerCH.prefix self1 = ScalerCH.prefix self
  /\ ScalerCH.name self1 = ScalerCH.name self
  /\ Forall (fun e => synced hw1 (snd e)) (ScalerCH.components (ScalerCH.channels self1))
  /\ ScalerCH.match_names hw2 self1 = ScalerCH.match_names hw2 self
  /\ ScalerCH.match_names hw1 self1 = self1.
Proof.
  cbv zeta.
  assert (Hlast : forall hw, ScalerCH.match_names hw (ScalerCH.match_names hw1 self)
                             = ScalerCH.match_names hw self).
  { intros hw. unfold ScalerCH.match_names, ScalerCH.set_components. cbn.
    rewrite map_map. do 2 f_equal.
    apply map_ext. intros [s ch]. reflexivity. }
  repeat split; try apply Hlast.
  - apply match_names_keys.
  - apply match_names_synced.
Qed.

(** ** Construction of the composite device *)

Lemma active_loop_match_names hw comps :
  forall active,
    ScalerCH.active_loop (map (fun '(s, ch) => (s, ScalerChannel.match_name hw ch)) comps) active
    = ScalerCH.active_loop comps active.
Proof.
  induction comps as [|[s ch] rest IH]; simpl; intros active; [reflexivity|].
  destruct (Py.truthy (ScalerChannel.name ch)); apply IH.
Qed.

Lemma Device_init_resync fw hw hw' prefix_ name_ :
  map (fun '(s, ch) => (s, ScalerChannel.match_name hw' ch))
      (ScalerCH.components (ScalerCH.channels (ScalerCH.Device_init fw hw prefix_ name_)))
  = ScalerCH.components (ScalerCH.channels (ScalerCH.Device_init fw hw' prefix_ name_)).
Proof.
  rewrite !components_Device_init, map_map.
  apply map_ext. intros [attr [[c suffix] kw]]. reflexivity.
Qed.

(** Synchronising a constructed device under the control system as it is now
    gives exactly the device a fresh construction with the same arguments
    would give now; in particular match_names right after construction
    changes nothing. *)
Theorem resync_is_fresh_construction (fw : Framework) (hw hw' : HW) (prefix_ name_ : string) :
  ScalerCH.match_names hw' (ScalerCH.init fw hw prefix_ name_)
  = ScalerCH.init fw hw' prefix_ name_
  /\ ScalerCH.match_names hw (ScalerCH.init fw hw prefix_ name_)
     = ScalerCH.init fw hw prefix_ name_.
Proof.
  assert (H : forall h1 h2, ScalerCH.match_names h2 (ScalerCH.init fw h1 prefix_ name_)
                            = ScalerCH.init fw h2 prefix_ name_).
  { intros h1 h2.
    assert (HA : ScalerCH.active_loop
                   (ScalerCH.components (ScalerCH.channels (ScalerCH.Device_init fw h1 prefix_ name_))) []
                 = ScalerCH.active_loop
                     (ScalerCH.components (ScalerCH.channels (ScalerCH.Device_init fw h2 prefix_ name_))) []).
    { rewrite <- (Device_init_resync fw h1 h2 prefix_ name_).
      now rewrite active_loop_match_names. }
    unfold ScalerCH.init. rewrite HA.
    generalize (ScalerCH.active_loop
                  (ScalerCH.components (ScalerCH.channels (ScalerCH.Device_init fw h2 prefix_ name_))) []).
    intros active.
    pose proof (Device_init_resync fw h1 h2 prefix_ name_) as Hc.
    unfold ScalerCH.match_names, ScalerCH.set_components.
    rewrite components_set_attrs, Hc.
    reflexivity. }
  split; apply H.
Qed.

(** The read sets construction leaves: both are the display names of the 32
    members, in member order, those with an empty name left out; they are
    the same for every state of the control system; the members are chan01
    to chan32, each constructed on the device's own address with its own
    index and synchronised at construction. *)
Theorem init_read_sets_characterised (fw : Framework) (hw hw' : HW) (prefix_ name_ : string) :
  let dev := ScalerCH.init fw hw prefix_ name_ in
  let comps := ScalerCH.components (ScalerCH.channels dev) in
  ScalerCH.read_attrs (ScalerCH.channels dev)
  = filter Py.truthy (map (fun e => ScalerChannel.name (snd e)) comps)
  /\ ScalerCH.configuration_attrs (ScalerCH.channels dev)
     = filter Py.truthy (map (fun e => ScalerChannel.name (snd e)) comps)
  /\ ScalerCH.read_attrs (ScalerCH.channels (ScalerCH.init fw hw' prefix_ name_))
     = ScalerCH.read_attrs (ScalerCH.channels dev)
  /\ (List.length (ScalerCH.read_attrs (ScalerCH.channels dev)) <= 32)%nat
  /\ Py.keys comps = Example.chan_ids
  /\ Forall (fun e => synced hw (snd e)
                      /\ ScalerChannel.prefix (snd e) = prefix_ ++ ""
                      /\ fst e = "chan" ++ Py.fmt_02d (ScalerChannel._ch_num (snd e))
                      /\ ScalerChannel.kind (snd e) = HINTED
                      /\ ScalerChannel.name (snd e)
                         = child_name fw (child_name fw name_ "channels") (fst e))
            comps.
Proof.
  cbv zeta.
  assert (Hr : ScalerCH.read_attrs (ScalerCH.channels (ScalerCH.init fw hw prefix_ name_))
               = filter Py.truthy
                   (map (fun e => ScalerChannel.name (snd e))
                        (ScalerCH.components (ScalerCH.channels (ScalerCH.init fw hw prefix_ name_))))).
  { unfold ScalerCH.init.
    now rewrite read_attrs_set_attrs, components_set_attrs, active_loop_spec, app_nil_l. }
  split; [exact Hr|].
  split; [exact Hr|].
  split; [apply init_active_channels_ignore_hw|].
  split.
  { rewrite Hr.
    eapply Nat.le_trans; [apply filter_length_le|].
    rewrite length_map.
    rewrite <- (length_map fst). fold (Py.keys (ScalerCH.components
      (ScalerCH.channels (ScalerCH.init fw hw prefix_ name_)))).
    rewrite init_component_names. reflexivity. }
  split; [apply init_component_names|].
  unfold ScalerCH.init. rewrite components_set_attrs, components_Device_init.
  rewrite declared_channels_eq, map_map.
  apply Forall_forall. intros e He.
  apply in_map_iff in He as [k [<- _]]. cbn.
  repeat split.
Qed.

(** ** Addresses of the composite device *)

(** Every address the device is bound to: the device-level signals, then the
    four fields of each member. *)
Definition ScalerCH_pvnames (self : ScalerCH.t) : list string :=
  (map (fun e => Signal.pvname (snd e)) (ScalerCH.signals self)
   ++ flat_map (fun e => ScalerChannel_pvnames (snd e))
               (ScalerCH.components (ScalerCH.channels self)))%list.

(** The suffixes the class declares: the eleven device-level ones and the
    four per channel index. *)
Definition ScalerCH_suffixes : list string :=
  (map snd ScalerCH.declared_signals
   ++ flat_map (fun k => map (fun f => (f ++ Py.str_int k)%string) channel_fields)
               (Py.range 1 33))%list.

Lemma append_empty_r (a : string) : a ++ "" = a.
Proof. induction a as [|c a IH]; simpl; [reflexivity|now rewrite IH]. Qed.

Lemma append_assoc (a b c : string) : (a ++ b) ++ c = a ++ b ++ c.
Proof. induction a as [|x a IH]; simpl; [reflexivity|now rewrite IH]. Qed.

Lemma map_flat_map_comm {A B C : Type} (f : B -> C) (g : A -> list B) (l : list A) :
  map f (flat_map g l) = flat_map (fun x => map f (g x)) l.
Proof.
  induction l as [|x l IH]; simpl; [reflexivity|].
  now rewrite map_app, IH.
Qed.

Lemma flat_map_of_map {A B C : Type} (f : A -> B) (g : B -> list C) (l : list A) :
  flat_map g (map f l) = flat_map (fun x => g (f x)) l.
Proof. induction l as [|x l IH]; simpl; [reflexivity|now rewrite IH]. Qed.

Lemma ScalerCH_pvnames_init fw hw prefix_ name_ :
  ScalerCH_pvnames (ScalerCH.init fw hw prefix_ name_)
  = map (fun suffix => prefix_ ++ suffix) ScalerCH_suffixes.
Proof.
  assert (Hs : map (fun e => Signal.pvname (snd e))
                   (ScalerCH.signals (ScalerCH.init fw hw prefix_ name_))
               = map (fun suffix => prefix_ ++ suffix) (map snd ScalerCH.declared_signals)).
  { unfold ScalerCH.init, ScalerCH.set_attrs, ScalerCH.Device_init.
    cbn [ScalerCH.signals]. rewrite !map_map.
    apply map_ext. intros [[attr c] suffix]. reflexivity. }
  assert (Hc : flat_map (fun e => ScalerChannel_pvnames (snd e))
                        (ScalerCH.components (ScalerCH.channels (ScalerCH.init fw hw prefix_ name_)))
               = map (fun suffix => prefix_ ++ suffix)
                     (flat_map (fun k => map (fun f => f ++ Py.str_int k) channel_fields)
                               (Py.range 1 33))).
  { unfold ScalerCH.init. rewrite components_set_attrs, components_Device_init.
    rewrite declared_channels_eq, map_map, flat_map_of_map, map_flat_map_comm.
    apply flat_map_ext. intros k. cbn [snd kw_ch_num kw_kind].
    rewrite init_pvnames, map_map. apply map_ext. intros f.
    now rewrite append_empty_r. }
  unfold ScalerCH_pvnames, ScalerCH_suffixes.
  now rewrite map_app, Hs, Hc.
Qed.

(** A constructed device is bound to 139 addresses, each the device address
    followed by a declared suffix, and no two of its fields, device-level or
    per channel, are bound to the same address, whatever the device address
    is. *)
Theorem ScalerCH_addresses_distinct (fw : Framework) (hw : HW) (prefix_ name_ : string) :
  let dev := ScalerCH.init fw hw prefix_ name_ in
  ScalerCH_pvnames dev = map (fun suffix => prefix_ ++ suffix) ScalerCH_suffixes
  /\ NoDup (ScalerCH_pvnames dev)
  /\ List.length (ScalerCH_pvnames dev) = 139%nat.
Proof.
  cbv zeta. rewrite ScalerCH_pvnames_init.
  split; [reflexivity|]. split.
  - apply NoDup_map_on.
    + apply distinct_NoDup. vm_compute. reflexivity.
    + intros a b _ _ H. exact (append_inv_head _ _ _ H).
  - rewrite length_map. vm_compute. reflexivity.
Qed.

(** ** The loops of the selection *)

(** The loop over the requested names, for any reverse lookup and any list
    accumulated so far: when every requested name is a key it returns the
    accumulated list followed by the identifier of each name, in the order
    asked and with repetitions kept; otherwise it raises the error that
    carries the first requested name that is no key together with all keys of
    the lookup. *)
Theorem read_attrs_loop_characterised (name_map : Py.dict string) (chan_names acc : list string) :
  match ScalerCH.read_attrs_loop name_map chan_names acc with
  | inr r =>
      Forall2 (fun ch s => Py.get ch name_map = Some s) chan_names
              (skipn (List.length acc) r)
      /\ firstn (List.length acc) r = acc
      /\ List.length r = (List.length acc + List.length chan_names)%nat
  | inl e =>
      exists before ch rest,
        chan_names = (before ++ ch :: rest)%list
        /\ Forall (fun c => Py.get c name_map <> None) before
        /\ Py.get ch name_map = None
        /\ e = Py.RuntimeError ScalerCH.not_configured ch (Py.keys name_map)
  end.
Proof.
  destruct (ScalerCH.read_attrs_loop name_map chan_names acc) as [e|r] eqn:H.
  - exact (read_attrs_loop_inl _ _ _ _ H).
  - destruct (read_attrs_loop_inr _ _ _ _ H) as (ids & -> & Hids).
    rewrite skipn_app, Nat.sub_diag, skipn_all. cbn [skipn app].
    rewrite firstn_app, Nat.sub_diag, firstn_all. cbn [firstn].
    rewrite app_nil_r, length_app.
    repeat split; [exact Hids|].
    f_equal. symmetry. exact (Forall2_length Hids).
Qed.

(** A lookup with the keys I0 and It: both resolve, a repeated name is
    kept twice, and a name that is no key stops the loop. *)
Example read_attrs_loop_samples :
  let name_map := [("I0", "chan02"); ("It", "chan05")] in
  ScalerCH.read_attrs_loop name_map ["It"; "I0"; "It"] ["chan01"]
  = inr ["chan01"; "chan05"; "chan02"; "chan05"]
  /\ ScalerCH.read_attrs_loop name_map ["It"; "If"; "Ix"] ["chan01"]
     = inl (Py.RuntimeError ScalerCH.not_configured "If" ["I0"; "It"])
  /\ ScalerCH.read_attrs_loop name_map [] ["chan01"] = inr ["chan01"].
Proof. repeat split. Qed.

(** The hints comprehension, for any members and any identifiers: when every
    identifier is a member it yields the count-value display name of each,
    in the order given; otherwise it fails at the first identifier that is
    not a member. *)
Theorem hint_fields_characterised (comps : Py.dict ScalerChannel.t) (ids : list string) :
  match ScalerCH.hint_fields comps ids with
  | inr fs =>
      Forall2 (fun id f => exists c, Py.get id comps = Some c
                                     /\ f = Signal.name (ScalerChannel.s c)) ids fs
  | inl e =>
      exists before id rest,
        ids = (before ++ id :: rest)%list
        /\ Forall (fun i => Py.get i comps <> None) before
        /\ Py.get id comps = None
        /\ e = Py.AttributeError id
  end.
Proof.
  induction ids as [|id rest IH]; cbn [ScalerCH.hint_fields].
  - constructor.
  - destruct (Py.get id comps) as [c|] eqn:Hc.
    + destruct (ScalerCH.hint_fields comps rest) as [e|fs].
      * destruct IH as (before & id' & rest' & -> & Hb & Hid & He).
        exists (id :: before), id', rest'. repeat split; auto.
        constructor; [congruence|exact Hb].
      * constructor; [eauto|exact IH].
    + exists [], id, rest. repeat split; auto.
Qed.

(** ** [select_channels] on a device that has members *)

(** On every device with at least one member, whatever names are requested
    (none included) and whatever the control system holds, select_channels
    does not return: it raises AttributeError while building the reverse
    lookup.  What the call leaves is the device as match_names leaves it: read
    set, configuration read set and hints as before the call, count-value
    names synchronised. *)
Theorem select_channels_with_members_raises (hw : HW) (chan_names : list string)
        (self : ScalerCH.t) :
  ScalerCH.components (ScalerCH.channels self) <> [] ->
  let out := ScalerCH.select_channels hw chan_names self in
  out = Raised (Py.AttributeError "'str' object has no attribute 'get'")
               (ScalerCH.match_names hw self)
  /\ ScalerCH.read_attrs (ScalerCH.channels (after out))
     = ScalerCH.read_attrs (ScalerCH.channels self)
  /\ ScalerCH.configuration_attrs (ScalerCH.channels (after out))
     = ScalerCH.configuration_attrs (ScalerCH.channels self)
  /\ ScalerCH.hints (after out) = ScalerCH.hints self
  /\ Forall (fun e => synced hw (snd e)) (ScalerCH.components (ScalerCH.channels (after out))).
Proof.
  intros Hne. cbv zeta.
  assert (Hout : ScalerCH.select_channels hw chan_names self
                 = Raised (Py.AttributeError "'str' object has no attribute 'get'")
                          (ScalerCH.match_names hw self)).
  { unfold ScalerCH.select_channels. rewrite match_names_components.
    destruct (ScalerCH.components (ScalerCH.channels self)) as [|[s ch] rest];
      [contradiction|].
    cbn [map]. rewrite name_map_loop_raises. reflexivity. }
  rewrite Hout. cbn [after].
  repeat split. apply match_names_synced.
Qed.

Lemma select_channels_with_members_raises_witness :
  ScalerCH.components (ScalerCH.channels (Example.sc Example.hw_AB)) <> []
  /\ ScalerCH.select_channels Example.hw_AB [] (Example.sc Example.hw_AB)
     = Raised (Py.AttributeError "'str' object has no attribute 'get'")
              (ScalerCH.match_names Example.hw_AB (Example.sc Example.hw_AB)).
Proof.
  assert (Hne : ScalerCH.components (ScalerCH.channels (Example.sc Example.hw_AB)) <> []).
  { intros H. apply (f_equal (@List.length _)) in H. vm_compute in H. discriminate H. }
  split; [exact Hne|].
  exact (proj1 (select_channels_with_members_raises Example.hw_AB []
                  (Example.sc Example.hw_AB) Hne)).
Defined.

(** ** [EpicsScaler]: the device *)

(** A value staged for a signal. *)
Inductive StageVal : Type :=
| SInt (z : Z)
| SStr (v : string).

(** [d.update(pairs)] for a list of key-value pairs. *)
Fixpoint dict_update {V : Type} (pairs : list (string * V)) (d : Py.dict V) : Py.dict V :=
  match pairs with
  | [] => d
  | (k, v) :: rest => dict_update rest (Py.set k v d)
  end.

Module EpicsScalerDevice.

Record t : Type := {
  prefix : string;
  name : string;
  signals : Py.dict Signal.t;
  channels : Py.dict Signal.t;
  names : Py.dict Signal.t;
  presets : Py.dict Signal.t;
  gates : Py.dict Signal.t;
  stage_sigs : Py.dict StageVal
}.

(** The class-level signals: attribute, class, suffix. *)
Definition declared_signals : list (string * SignalClass * string) :=
  [ ("count", EpicsSignal, ".CNT"); ("count_mode", EpicsSignal, ".CONT");
    ("delay", EpicsSignal, ".DLY"); ("auto_count_delay", EpicsSignal, ".DLY1");
    ("time", EpicsSignal, ".T"); ("freq", EpicsSignal, ".FREQ");
    ("preset_time", EpicsSignal, ".TP"); ("auto_count_time", EpicsSignal, ".TP1");
    ("update_rate", EpicsSignal, ".RATE");
    ("auto_count_update_rate", EpicsSignal, ".RAT1");
    ("egu", EpicsSignal, ".EGU") ].

(** One dynamic family instantiated on the device address. *)
Definition family (fw : Framework) (prefix_ family_name : string)
           (defn : Py.dict (SignalClass * string * Kind)) : Py.dict Signal.t :=
  map (fun '(attr, (c, suffix, _)) =>
         (attr, {| Signal.cls := c;
                   Signal.pvname := prefix_ ++ suffix;
                   Signal.name := child_name fw family_name attr;
                   Signal.string_ := false |}))
      defn.

(** Modelled from the spec: [Device.__init__] of ophyd.device, which is not
    part of this module ("a set of named fields bound 1:1 to hardware
    addresses computed by simple string concatenation of a fixed device
    address and a literal suffix"); [stage_sigs_] is what the framework has
    staged when it hands the object over. *)
Definition Device_init (fw : Framework) (prefix_ name_ : string)
           (stage_sigs_ : Py.dict StageVal) : t :=
  {| prefix := prefix_;
     name := name_;
     signals :=
       map (fun '(attr, c, suffix) =>
              (attr, {| Signal.cls := c;
                        Signal.pvname := prefix_ ++ suffix;
                        Signal.name := child_name fw name_ attr;
                        Signal.string_ := String.eqb attr "count_mode" |}))
           declared_signals;
     channels := family fw prefix_ (child_name fw name_ "channels") EpicsScaler.channels;
     names := family fw prefix_ (child_name fw name_ "names") EpicsScaler.names;
     presets := family fw prefix_ (child_name fw name_ "presets") EpicsScaler.presets;
     gates := family fw prefix_ (child_name fw name_ "gates") EpicsScaler.gates;
     stage_sigs := stage_sigs_ |}.

(** [__init__]: [self.stage_sigs.update([('count_mode', 0)])] *)
Definition init (fw : Framework) (prefix_ name_ : string)
           (stage_sigs_ : Py.dict StageVal) : t :=
  let self := Device_init fw prefix_ name_ stage_sigs_ in
  {| prefix := prefix self; name := name self; signals := signals self;
     channels := channels self; names := names self;
     presets := presets self; gates := gates self;
     stage_sigs := dict_update [("count_mode", SInt 0)] (stage_sigs self) |}.

(** Every address the device is bound to. *)
Definition pvnames (self : t) : list string :=
  map (fun e => Signal.pvname (snd e))
      (signals self ++ channels self ++ names self ++ presets self ++ gates self)%list.

End EpicsScalerDevice.

Lemma set_keys {V : Type} (k : string) (v : V) (d : Py.dict V) :
  Py.keys (Py.set k v d)
  = if existsb (String.eqb k) (Py.keys d) then Py.keys d else (Py.keys d ++ [k])%list.
Proof.
  induction d as [|[k0 v0] d IH]; simpl; [reflexivity|].
  destruct (String.eqb k k0) eqn:E; simpl; [reflexivity|].
  rewrite IH. destruct (existsb (String.eqb k) (Py.keys d)); reflexivity.
Qed.

(** Construction of the direct-field scaler stages count_mode = 0: afterwards
    a lookup of count_mode in the staged settings gives 0 whatever was staged
    for it before, every other key reads as before, a count_mode key that
    was already staged keeps its place and a new one goes last; the fields of
    the device are the ones the framework built. *)
Theorem EpicsScaler_stages_count_mode (fw : Framework) (prefix_ name_ : string)
        (stage_sigs_ : Py.dict StageVal) (k : string) :
  let base := EpicsScalerDevice.Device_init fw prefix_ name_ stage_sigs_ in
  let dev := EpicsScalerDevice.init fw prefix_ name_ stage_sigs_ in
  Py.get k (EpicsScalerDevice.stage_sigs dev)
  = (if String.eqb k "count_mode" then Some (SInt 0) else Py.get k stage_sigs_)
  /\ Py.keys (EpicsScalerDevice.stage_sigs dev)
     = (if existsb (String.eqb "count_mode") (Py.keys stage_sigs_)
        then Py.keys stage_sigs_
        else (Py.keys stage_sigs_ ++ ["count_mode"])%list)
  /\ EpicsScalerDevice.signals dev = EpicsScalerDevice.signals base
  /\ EpicsScalerDevice.channels dev = EpicsScalerDevice.channels base
  /\ EpicsScalerDevice.names dev = EpicsScalerDevice.names base
  /\ EpicsScalerDevice.presets dev = EpicsScalerDevice.presets base
  /\ EpicsScalerDevice.gates dev = EpicsScalerDevice.gates base.
Proof.
  cbv zeta. unfold EpicsScalerDevice.init.
  cbn [EpicsScalerDevice.stage_sigs EpicsScalerDevice.signals EpicsScalerDevice.channels
       EpicsScalerDevice.names EpicsScalerDevice.presets EpicsScalerDevice.gates
       EpicsScalerDevice.Device_init dict_update].
  repeat split.
  - apply get_set.
  - apply set_keys.
Qed.

(** Staged settings with a trigger delay and a count mode: the count mode is
    overwritten in place, the delay is kept. *)
Example EpicsScaler_stage_sample :
  EpicsScalerDevice.stage_sigs
    (EpicsScalerDevice.init Example.ophyd_fw "XF:SC" "sc"
       [("count_mode", SStr "AutoCount"); ("delay", SInt 2)])
  = [("count_mode", SInt 0); ("delay", SInt 2)]
  /\ EpicsScalerDevice.stage_sigs (EpicsScalerDevice.init Example.ophyd_fw "XF:SC" "sc" [])
     = [("count_mode", SInt 0)].
Proof. split; reflexivity. Qed.

(** The suffixes the direct-field scaler declares. *)
Definition EpicsScaler_suffixes : list string :=
  (map snd EpicsScalerDevice.declared_signals
   ++ map snd (attr_suffix EpicsScaler.channels)
   ++ map snd (attr_suffix EpicsScaler.names)
   ++ map snd (attr_suffix EpicsScaler.presets)
   ++ map snd (attr_suffix EpicsScaler.gates))%list.

Lemma family_pvnames fw prefix_ family_name defn :
  map (fun e => Signal.pvname (snd e)) (EpicsScalerDevice.family fw prefix_ family_name defn)
  = map (fun suffix => prefix_ ++ suffix) (map snd (attr_suffix defn)).
Proof.
  unfold EpicsScalerDevice.family, attr_suffix. rewrite !map_map.
  apply map_ext. intros [attr [[c suffix] kw]]. reflexivity.
Qed.

Lemma EpicsScaler_pvnames_init fw prefix_ name_ stage_sigs_ :
  EpicsScalerDevice.pvnames (EpicsScalerDevice.init fw prefix_ name_ stage_sigs_)
  = map (fun suffix => prefix_ ++ suffix) EpicsScaler_suffixes.
Proof.
  unfold EpicsScalerDevice.pvnames, EpicsScaler_suffixes, EpicsScalerDevice.init,
    EpicsScalerDevice.Device_init.
  cbn [EpicsScalerDevice.signals EpicsScalerDevice.channels EpicsScalerDevice.names
       EpicsScalerDevice.presets EpicsScalerDevice.gates].
  rewrite !map_app, !family_pvnames.
  apply (f_equal (fun l => (l ++ _)%list)).
  rewrite !map_map. apply map_ext. intros [[attr c] suffix]. reflexivity.
Qed.

(** The direct-field scaler is bound to 139 addresses, the device address
    followed by .CNT, .CONT, .DLY, .DLY1, .T, .FREQ, .TP, .TP1, .RATE, .RAT1,
    .EGU and by .S, .NM, .PR, .G with each index from 1 to 32; no two of its
    fields are bound to the same address, whatever the device address is. *)
Theorem EpicsScaler_addresses_distinct (fw : Framework) (prefix_ name_ : string)
        (stage_sigs_ : Py.dict StageVal) :
  let dev := EpicsScalerDevice.init fw prefix_ name_ stage_sigs_ in
  EpicsScalerDevice.pvnames dev = map (fun suffix => prefix_ ++ suffix) EpicsScaler_suffixes
  /\ NoDup (EpicsScalerDevice.pvnames dev)
  /\ List.length (EpicsScalerDevice.pvnames dev) = 139%nat
  /\ EpicsScaler_suffixes
     = (map snd EpicsScalerDevice.declared_signals
        ++ flat_map (fun f => map (fun i => (f ++ Py.str_int i)%string) (Py.range 1 33))
                    [".S"; ".NM"; ".PR"; ".G"])%list.
Proof.
  cbv zeta. rewrite EpicsScaler_pvnames_init.
  split; [reflexivity|]. split; [|split].
  - apply NoDup_map_on.
    + apply distinct_NoDup. vm_compute. reflexivity.
    + intros a b _ _ H. exact (append_inv_head _ _ _ H).
  - rewrite length_map. vm_compute. reflexivity.
  - vm_compute. reflexivity.
Qed.
